(** * easy_proxies: configuration loading and normalization

    A shallow embedding of [internal/config/config.go]: the [Config] tree,
    the node-file reader [loadNodesFromFile], the normalizer [normalize],
    [Load] and [ManagementEnabled], followed by the properties of the
    normalization pipeline.

    Conventions.
    - Go strings are [string] (sequences of bytes).
    - [uint16] values are integers in [0, 65536); the only arithmetic the
      code performs on them is [portCursor++], written out with its
      wrap-around as [uint16_incr].
    - [int] and [time.Duration] are integers; the code only compares them
      with zero and overwrites them with constants.
    - [*bool] is [option bool], [None] being the nil pointer.
    - A Go function returning [(T, error)] returns [result T].
    - [normalize] has a pointer receiver and mutates the configuration in
      place; here the configuration is passed explicitly and the mutated
      value is returned on success. *)

From Stdlib Require Import ZArith List String Ascii Bool Lia.
From Stdlib Require Import Numbers.DecimalString Numbers.DecimalNat.
Import ListNotations.
Open Scope string_scope.
Open Scope Z_scope.

(** ** Results and errors *)

Inductive result (E A : Type) : Type :=
| Ok (a : A)
| Err (e : E).
Arguments Ok {E A} a.
Arguments Err {E A} e.

Definition bind {E A B : Type} (r : result E A) (k : A -> result E B) : result E B :=
  match r with
  | Ok a => k a
  | Err e => Err e
  end.

Notation "x <- r ;; k" := (bind r (fun x => k))
  (at level 61, r at next level, right associativity).

(** The error of an [os.ReadFile] or [yaml.Unmarshal] call, by its message. *)
Definition lib_error := string.

(** The errors [Load] and [normalize] return, one constructor per
    [fmt.Errorf] / [errors.New] of the source, carrying the values the
    message is formatted with. *)
Inductive config_error : Type :=
| ErrReadConfig (cause : lib_error)
    (* "read config: %w" *)
| ErrDecodeConfig (cause : lib_error)
    (* "decode config: %w" *)
| ErrUnsupportedMode (mode : string)
    (* "unsupported mode %q (use 'pool' or 'multi-port')" *)
| ErrLoadNodesFile (path : string) (cause : lib_error)
    (* "load nodes from file %q: %w" *)
| ErrNodesEmpty
    (* "config.nodes cannot be empty (configure nodes in config or use nodes_file)" *)
| ErrMissingURI (idx : nat).
    (* "node %d is missing uri" *)

(** ** Machine integers *)

Definition uint16_modulus : Z := 65536.

Definition is_uint16 (x : Z) : Prop := 0 <= x < uint16_modulus.

(** [x++] on a [uint16]. *)
Definition uint16_incr (x : Z) : Z := (x + 1) mod uint16_modulus.

(** ** The configuration tree *)

Module ListenerConfig.
Record t : Type := mk {
  Address : string;
  Port : Z;
  Username : string;
  Password : string
}.
End ListenerConfig.

Module PoolConfig.
Record t : Type := mk {
  Mode : string;
  FailureThreshold : Z;
  BlacklistDuration : Z
}.
End PoolConfig.

Module MultiPortConfig.
Record t : Type := mk {
  Address : string;
  BasePort : Z;
  Username : string;
  Password : string
}.
End MultiPortConfig.

Module ManagementConfig.
Record t : Type := mk {
  Enabled : option bool;
  Listen : string;
  ProbeTarget : string
}.
End ManagementConfig.

Module NodeConfig.
Record t : Type := mk {
  Name : string;
  URI : string;
  Port : Z;
  Username : string;
  Password : string
}.

Definition set_Name (v : string) (n : t) : t :=
  mk v (URI n) (Port n) (Username n) (Password n).
Definition set_URI (v : string) (n : t) : t :=
  mk (Name n) v (Port n) (Username n) (Password n).
Definition set_Port (v : Z) (n : t) : t :=
  mk (Name n) (URI n) v (Username n) (Password n).
Definition set_Username (v : string) (n : t) : t :=
  mk (Name n) (URI n) (Port n) v (Password n).
Definition set_Password (v : string) (n : t) : t :=
  mk (Name n) (URI n) (Port n) (Username n) v.
End NodeConfig.

Module Config.
Record t : Type := mk {
  Mode : string;
  Listener : ListenerConfig.t;
  MultiPort : MultiPortConfig.t;
  Pool : PoolConfig.t;
  Management : ManagementConfig.t;
  Nodes : list NodeConfig.t;
  NodesFile : string;
  LogLevel : string
}.

Definition set_Mode (v : string) (c : t) : t :=
  mk v (Listener c) (MultiPort c) (Pool c) (Management c) (Nodes c) (NodesFile c) (LogLevel c).
Definition set_Listener (v : ListenerConfig.t) (c : t) : t :=
  mk (Mode c) v (MultiPort c) (Pool c) (Management c) (Nodes c) (NodesFile c) (LogLevel c).
Definition set_MultiPort (v : MultiPortConfig.t) (c : t) : t :=
  mk (Mode c) (Listener c) v (Pool c) (Management c) (Nodes c) (NodesFile c) (LogLevel c).
Definition set_Pool (v : PoolConfig.t) (c : t) : t :=
  mk (Mode c) (Listener c) (MultiPort c) v (Management c) (Nodes c) (NodesFile c) (LogLevel c).
Definition set_Management (v : ManagementConfig.t) (c : t) : t :=
  mk (Mode c) (Listener c) (MultiPort c) (Pool c) v (Nodes c) (NodesFile c) (LogLevel c).
Definition set_Nodes (v : list NodeConfig.t) (c : t) : t :=
  mk (Mode c) (Listener c) (MultiPort c) (Pool c) (Management c) v (NodesFile c) (LogLevel c).
Definition set_LogLevel (v : string) (c : t) : t :=
  mk (Mode c) (Listener c) (MultiPort c) (Pool c) (Management c) (Nodes c) (NodesFile c) v.
End Config.

(** ** The part of Go's library the code calls, computed here *)

Definition newline : ascii := Ascii.ascii_of_nat 10.

(** [strings.Split(s, "\n")]: the substrings between newline bytes; a
    string without newline (the empty one too) gives a single element. *)
Fixpoint strings_Split_newline (s : string) : list string :=
  match s with
  | EmptyString => [EmptyString]
  | String ch rest =>
      if Ascii.eqb ch newline then EmptyString :: strings_Split_newline rest
      else match strings_Split_newline rest with
           | [] => [String ch EmptyString]
           | l :: ls => String ch l :: ls
           end
  end.

(** [strings.HasPrefix(s, prefix)]. *)
Definition strings_HasPrefix (s pre : string) : bool := String.prefix pre s.

(** [fmt.Sprintf("node-%d", idx)]. *)
Definition Sprintf_node (idx : nat) : string :=
  "node-" ++ NilEmpty.string_of_uint (Nat.to_uint idx).

(** [time.Hour], in nanoseconds. *)
Definition time_Hour : Z := 3600 * 1000000000.

(** The one field of [url.URL] the code reads. *)
Module url.
Record URL : Type := mkURL { Fragment : string }.
End url.

(** ** An executable instance of the remaining library calls

    [strings.TrimSpace], [url.Parse], [url.QueryUnescape], [os.ReadFile]
    and [yaml.Unmarshal] belong to Go's library and to the environment; the
    embedding of the repository's code below takes them as parameters.  The
    functions of this part instantiate those parameters so that the model
    runs on concrete inputs: whitespace is the six ASCII space bytes; a URL
    is refused when it holds an ASCII control byte or a malformed escape in
    its fragment, and its fragment is what follows the first ['#'],
    percent-decoded; files are an association list from paths to
    contents. *)

Definition is_ascii_space (ch : ascii) : bool :=
  let n := nat_of_ascii ch in
  ((9 <=? n) && (n <=? 13))%nat || (n =? 32)%nat.

Fixpoint trim_left (s : string) : string :=
  match s with
  | EmptyString => EmptyString
  | String ch rest => if is_ascii_space ch then trim_left rest else s
  end.

Fixpoint trim_right (s : string) : string :=
  match s with
  | EmptyString => EmptyString
  | String ch rest =>
      match trim_right rest with
      | EmptyString => if is_ascii_space ch then EmptyString else String ch EmptyString
      | kept => String ch kept
      end
  end.

Definition ascii_TrimSpace (s : string) : string := trim_right (trim_left s).

(** The string does not start with a space byte. *)
Definition no_leading_space (s : string) : Prop :=
  match s with
  | EmptyString => True
  | String ch _ => is_ascii_space ch = false
  end.

Definition is_control_byte (ch : ascii) : bool :=
  let n := nat_of_ascii ch in
  ((n <? 32) || (n =? 127))%nat.

Fixpoint has_control_byte (s : string) : bool :=
  match s with
  | EmptyString => false
  | String ch rest => is_control_byte ch || has_control_byte rest
  end.

Fixpoint after_hash (s : string) : string :=
  match s with
  | EmptyString => EmptyString
  | String ch rest => if Ascii.eqb ch "#" then rest else after_hash rest
  end.

Definition hex_digit (ch : ascii) : option nat :=
  let n := nat_of_ascii ch in
  if ((48 <=? n) && (n <=? 57))%nat then Some (n - 48)%nat
  else if ((97 <=? n) && (n <=? 102))%nat then Some (n - 87)%nat
  else if ((65 <=? n) && (n <=? 70))%nat then Some (n - 55)%nat
  else None.

(** Percent-decoding: [%XY] is the byte with hexadecimal digits [X], [Y];
    with [plus] set, ['+'] is a space; a ['%'] not followed by two
    hexadecimal digits is an error. *)
Fixpoint percent_decode (plus : bool) (s : string) : option string :=
  match s with
  | EmptyString => Some EmptyString
  | String ch rest =>
      if Ascii.eqb ch "%" then
        match rest with
        | String hi (String lo rest') =>
            match hex_digit hi, hex_digit lo with
            | Some a, Some b =>
                option_map (String (ascii_of_nat (16 * a + b))) (percent_decode plus rest')
            | _, _ => None
            end
        | _ => None
        end
      else if plus && Ascii.eqb ch "+" then
        option_map (String " "%char) (percent_decode plus rest)
      else option_map (String ch) (percent_decode plus rest)
  end.

Definition cut_url_Parse (rawURL : string) : result lib_error url.URL :=
  if has_control_byte rawURL then Err "net/url: invalid control character in URL"
  else match percent_decode false (after_hash rawURL) with
       | Some fragment => Ok (url.mkURL fragment)
       | None => Err "invalid URL escape"
       end.

Definition percent_QueryUnescape (s : string) : result lib_error string :=
  match percent_decode true s with
  | Some d => Ok d
  | None => Err "invalid URL escape"
  end.

Fixpoint files_ReadFile (files : list (string * string)) (path : string)
  : result lib_error string :=
  match files with
  | [] => Err "open: no such file or directory"
  | (p, data) :: more => if String.eqb p path then Ok data else files_ReadFile more path
  end.

(** ** Sample inputs *)

(** A decoded document that sets only the mode, the base port and the
    credentials of [multi_port], the nodes and the node file. *)
Definition rawConfig (mode : string) (base : Z) (nodes : list NodeConfig.t)
    (nodesFile : string) : Config.t :=
  Config.mk mode (ListenerConfig.mk "" 0 "" "")
    (MultiPortConfig.mk "" base "mp-user" "mp-pass")
    (PoolConfig.mk "" 0 0) (ManagementConfig.mk None "" "")
    nodes nodesFile "".

(** [{uri: uri}]. *)
Definition uriNode (uri : string) : NodeConfig.t := NodeConfig.mk "" uri 0 "" "".

(** Two nodes without port, under [base_port: 65535]. *)
Definition wrapConfig : Config.t :=
  rawConfig "" 65535 [uriNode "socks5://h:1#Alice"; uriNode "socks5://h:2"] "".

(** The first node asks for the port the cursor starts at. *)
Definition clashConfig : Config.t :=
  rawConfig "multi-port" 0
    [NodeConfig.mk "first" "socks5://h:1" 28000 "" ""; uriNode "socks5://h:2"] "".

(** The example of the specification, with a node file besides. *)
Definition mixedConfig : Config.t :=
  rawConfig "multi_port" 0
    [uriNode "socks5://h:1#Alice"; NodeConfig.mk " bob " "  socks5://h:2 " 0 "" "secret"]
    "nodes.txt".

Definition mixedFiles : list (string * string) :=
  [("nodes.txt", "# upstreams

  socks5://x:1#a%2520b
socks5://y:2#100%25
   # indented comment
socks5://z:3
")].

(** [mixedConfig] as a document. *)
Definition mixedDocument : string :=
  "mode: multi_port
multi_port:
  username: mp-user
  password: mp-pass
nodes:
  - uri: socks5://h:1#Alice
  - name: ' bob '
    uri: '  socks5://h:2 '
    password: secret
nodes_file: nodes.txt
".

(** A decoder that knows that one document. *)
Definition sample_Unmarshal (data : string) : result lib_error Config.t :=
  if String.eqb data mixedDocument then Ok mixedConfig
  else Err "yaml: unmarshal errors".

(** The configuration file, a file that does not decode, and the node file. *)
Definition mixedDisk : list (string * string) :=
  ("config.yaml", mixedDocument) :: ("broken.yaml", "nodes: {") :: mixedFiles.


(** ** The code of [config.go] *)

Section ConfigGo.

#[local] Set Default Proof Using "Type".

(** [strings.TrimSpace]. *)
Variable strings_TrimSpace : string -> string.
(** [url.Parse]. *)
Variable url_Parse : string -> result lib_error url.URL.
(** [url.QueryUnescape]. *)
Variable url_QueryUnescape : string -> result lib_error string.
(** [os.ReadFile], with the bytes of the file as a string. *)
Variable os_ReadFile : string -> result lib_error string.
(** [yaml.Unmarshal] into a zero [Config]. *)
Variable yaml_Unmarshal : string -> result lib_error Config.t.

(** The descriptor [loadNodesFromFile] builds for a line:
    [NodeConfig{URI: line}], all other fields zero. *)
Definition NodeConfig_of_URI (line : string) : NodeConfig.t :=
  NodeConfig.mk "" line 0 "" "".

(** One iteration of the loop of [loadNodesFromFile] (lines 203-222): the
    slice [nodes] before the iteration and [line], to the slice after it. *)
Definition loadNodes_step (nodes : list NodeConfig.t) (line : string) : list NodeConfig.t :=
  let line := strings_TrimSpace line in
  if String.eqb line "" || strings_HasPrefix line "#" then nodes
  else nodes ++ [NodeConfig_of_URI line].

(** The body of [loadNodesFromFile] after the read (lines 200-224). *)
Definition parseNodeLines (data : string) : list NodeConfig.t :=
  let lines := strings_Split_newline data in
  fold_left loadNodes_step lines [].

(** [loadNodesFromFile] (lines 194-225). *)
Definition loadNodesFromFile (path : string) : result lib_error (list NodeConfig.t) :=
  match os_ReadFile path with
  | Err err => Err err
  | Ok data => Ok (parseNodeLines data)
  end.

(** [normalize], lines 82-93: mode defaulting, alias and validation. *)
Definition normalizeMode (c : Config.t) : result config_error Config.t :=
  let c := if String.eqb (Config.Mode c) "" then Config.set_Mode "pool" c else c in
  let c := if String.eqb (Config.Mode c) "multi_port" then Config.set_Mode "multi-port" c else c in
  if String.eqb (Config.Mode c) "pool" || String.eqb (Config.Mode c) "multi-port"
  then Ok c
  else Err (ErrUnsupportedMode (Config.Mode c)).

(** [normalize], lines 94-99. *)
Definition defaultListener (l : ListenerConfig.t) : ListenerConfig.t :=
  let address := if String.eqb (ListenerConfig.Address l) "" then "0.0.0.0"
                 else ListenerConfig.Address l in
  let port := if ListenerConfig.Port l =? 0 then 2323 else ListenerConfig.Port l in
  ListenerConfig.mk address port (ListenerConfig.Username l) (ListenerConfig.Password l).

(** [normalize], lines 100-108. *)
Definition defaultPool (p : PoolConfig.t) : PoolConfig.t :=
  let mode := if String.eqb (PoolConfig.Mode p) "" then "sequential" else PoolConfig.Mode p in
  let threshold := if PoolConfig.FailureThreshold p <=? 0 then 3
                   else PoolConfig.FailureThreshold p in
  let duration := if PoolConfig.BlacklistDuration p <=? 0 then 24 * time_Hour
                  else PoolConfig.BlacklistDuration p in
  PoolConfig.mk mode threshold duration.

(** [normalize], lines 109-114. *)
Definition defaultMultiPort (m : MultiPortConfig.t) : MultiPortConfig.t :=
  let address := if String.eqb (MultiPortConfig.Address m) "" then "0.0.0.0"
                 else MultiPortConfig.Address m in
  let base := if MultiPortConfig.BasePort m =? 0 then 28000 else MultiPortConfig.BasePort m in
  MultiPortConfig.mk address base (MultiPortConfig.Username m) (MultiPortConfig.Password m).

(** [normalize], lines 115-124. *)
Definition defaultManagement (m : ManagementConfig.t) : ManagementConfig.t :=
  let listen := if String.eqb (ManagementConfig.Listen m) "" then "127.0.0.1:9090"
                else ManagementConfig.Listen m in
  let probe := if String.eqb (ManagementConfig.ProbeTarget m) "" then "www.apple.com:80"
               else ManagementConfig.ProbeTarget m in
  let enabled := match ManagementConfig.Enabled m with
                 | None => Some true
                 | Some b => Some b
                 end in
  ManagementConfig.mk enabled listen probe.

(** [normalize], lines 94-124: the defaults, none of which can fail. *)
Definition applyDefaults (c : Config.t) : Config.t :=
  let c := Config.set_Listener (defaultListener (Config.Listener c)) c in
  let c := Config.set_Pool (defaultPool (Config.Pool c)) c in
  let c := Config.set_MultiPort (defaultMultiPort (Config.MultiPort c)) c in
  Config.set_Management (defaultManagement (Config.Management c)) c.

(** [normalize], lines 127-134: the nodes of the file, when one is
    configured, are appended to the inline ones. *)
Definition mergeNodes (c : Config.t) : result config_error Config.t :=
  if negb (String.eqb (Config.NodesFile c) "") then
    match loadNodesFromFile (Config.NodesFile c) with
    | Err err => Err (ErrLoadNodesFile (Config.NodesFile c) err)
    | Ok fileNodes => Ok (Config.set_Nodes (Config.Nodes c ++ fileNodes) c)
    end
  else Ok c.

(** [normalize], lines 141-142: the name and the URI of the node trimmed. *)
Definition trimmedNode (n : NodeConfig.t) : NodeConfig.t :=
  let n := NodeConfig.set_Name (strings_TrimSpace (NodeConfig.Name n)) n in
  NodeConfig.set_URI (strings_TrimSpace (NodeConfig.URI n)) n.

(** [normalize], lines 148-158: the name taken from the fragment of the
    URI when the node has none. *)
Definition nameFromFragment (n : NodeConfig.t) : NodeConfig.t :=
  if String.eqb (NodeConfig.Name n) "" then
    match url_Parse (NodeConfig.URI n) with
    | Ok parsed =>
        if negb (String.eqb (url.Fragment parsed) "") then
          match url_QueryUnescape (url.Fragment parsed) with
          | Ok decoded => NodeConfig.set_Name decoded n
          | Err _ => NodeConfig.set_Name (url.Fragment parsed) n
          end
        else n
    | Err _ => n
    end
  else n.

(** The body of the loop of [normalize] (lines 141-176) for the node [n] at
    index [idx], with [c.Mode] and [c.MultiPort] as [mode] and [mp]: the
    node and the port cursor after the iteration, or the error returned. *)
Definition normalizeNode (mode : string) (mp : MultiPortConfig.t)
    (idx : nat) (portCursor : Z) (n : NodeConfig.t)
  : result config_error (NodeConfig.t * Z) :=
  let n := trimmedNode n in
  if String.eqb (NodeConfig.URI n) "" then Err (ErrMissingURI idx)
  else
    let n := nameFromFragment n in
    let n := if String.eqb (NodeConfig.Name n) ""
             then NodeConfig.set_Name (Sprintf_node idx) n else n in
    let '(n, portCursor) :=
      if NodeConfig.Port n =? 0
      then (NodeConfig.set_Port portCursor n, uint16_incr portCursor)
      else (n, portCursor) in
    let n := if String.eqb mode "multi-port" then
               if String.eqb (NodeConfig.Username n) "" then
                 NodeConfig.set_Password (MultiPortConfig.Password mp)
                   (NodeConfig.set_Username (MultiPortConfig.Username mp) n)
               else n
             else n in
    Ok (n, portCursor).

(** The loop of [normalize] (lines 140-177) over the nodes from index
    [idx] on, stopping at the first error. *)
Fixpoint normalizeNodes (mode : string) (mp : MultiPortConfig.t)
    (idx : nat) (portCursor : Z) (nodes : list NodeConfig.t)
  : result config_error (list NodeConfig.t) :=
  match nodes with
  | [] => Ok []
  | n :: rest =>
      r <- normalizeNode mode mp idx portCursor n;;
      rest' <- normalizeNodes mode mp (S idx) (snd r) rest;;
      Ok (fst r :: rest')
  end.

(** [normalize], lines 178-180. *)
Definition defaultLogLevel (c : Config.t) : Config.t :=
  if String.eqb (Config.LogLevel c) "" then Config.set_LogLevel "info" c else c.

(** [normalize] (lines 81-182). *)
Definition normalize (c : Config.t) : result config_error Config.t :=
  c <- normalizeMode c;;
  let c := applyDefaults c in
  c <- mergeNodes c;;
  if (List.length (Config.Nodes c) =? 0)%nat then Err ErrNodesEmpty
  else
    let portCursor := MultiPortConfig.BasePort (Config.MultiPort c) in
    nodes <- normalizeNodes (Config.Mode c) (Config.MultiPort c) 0 portCursor (Config.Nodes c);;
    let c := Config.set_Nodes nodes c in
    Ok (defaultLogLevel c).

(** [Load] (lines 66-79). *)
Definition Load (path : string) : result config_error Config.t :=
  match os_ReadFile path with
  | Err err => Err (ErrReadConfig err)
  | Ok data =>
      match yaml_Unmarshal data with
      | Err err => Err (ErrDecodeConfig err)
      | Ok cfg => normalize cfg
      end
  end.

(** What a call of a method that only reads its receiver leaves behind:
    the value returned, or a run-time panic (a nil dereference), and the
    receiver after the call. *)
Inductive outcome (A : Type) : Type :=
| Returns (a : A)
| Panics.
Arguments Returns {A} a.
Arguments Panics {A}.

(** [*p] for a [*bool]. *)
Definition deref (p : option bool) : outcome bool :=
  match p with
  | Some b => Returns b
  | None => Panics
  end.

(** [ManagementEnabled] (lines 185-190): the result and the receiver
    after the call. *)
Definition ManagementEnabled (c : Config.t) : outcome bool * Config.t :=
  match ManagementConfig.Enabled (Config.Management c) with
  | None => (Returns true, c)
  | Some _ => (deref (ManagementConfig.Enabled (Config.Management c)), c)
  end.

(** ** The specification's reading of the same steps *)

(** A trimmed line of the node file yields a descriptor when it is neither
    empty nor a comment. *)
Definition keptLine (trimmed : string) : bool :=
  negb (String.eqb trimmed "") && negb (strings_HasPrefix trimmed "#").

(** The lines of the file that yield a descriptor, trimmed, in file order. *)
Definition keptLines (data : string) : list string :=
  filter keptLine (map strings_TrimSpace (strings_Split_newline data)).

(** The mode values [normalize] accepts. *)
Definition supportedMode (m : string) : Prop :=
  m = "" \/ m = "multi_port" \/ m = "pool" \/ m = "multi-port".


(** The name [normalize] leaves on the node [n] at index [idx] (lines
    141-163), read off the code. *)
Definition derivedName (n : NodeConfig.t) (idx : nat) : string :=
  let name := NodeConfig.Name (nameFromFragment (trimmedNode n)) in
  if String.eqb name "" then Sprintf_node idx else name.

(** The port cursor after the loop has run over [nodes], from [p]: it moves
    at the nodes whose port is zero. *)
Fixpoint cursorAfter (p : Z) (nodes : list NodeConfig.t) : Z :=
  match nodes with
  | [] => p
  | n :: rest => cursorAfter (if NodeConfig.Port n =? 0 then uint16_incr p else p) rest
  end.

(** [F] is what the node file of [c] contributes to the merge: nothing
    when no file is configured, the descriptors read from it otherwise. *)
Definition fileNodes (c : Config.t) (F : list NodeConfig.t) : Prop :=
  (Config.NodesFile c = "" /\ F = []) \/
  (Config.NodesFile c <> "" /\ loadNodesFromFile (Config.NodesFile c) = Ok F).

(** The ports the loop leaves on [nodes], with the cursor at [p]: a node
    keeps a nonzero port, a node with port zero takes the cursor, which
    then moves by one. *)
Fixpoint assignedPorts (p : Z) (nodes : list NodeConfig.t) : list Z :=
  match nodes with
  | [] => []
  | n :: rest =>
      if NodeConfig.Port n =? 0 then p :: assignedPorts (uint16_incr p) rest
      else NodeConfig.Port n :: assignedPorts p rest
  end.

(** The number of nodes whose port is zero. *)
Definition zeroPorts (nodes : list NodeConfig.t) : nat :=
  List.length (filter (fun n => NodeConfig.Port n =? 0) nodes).

(** The ports [base], [base]+1, ... of [count] nodes. *)
Definition contiguousPorts (base : Z) (count : nat) : list Z :=
  map (fun k => base + Z.of_nat k) (seq 0 count).

(** The invariant of a resolved node. *)
Definition resolvedNode (n : NodeConfig.t) : Prop :=
  NodeConfig.Name n <> "" /\ NodeConfig.URI n <> "" /\ NodeConfig.Port n <> 0.

(** The invariant of a resolved configuration. *)
Definition resolvedConfig (c : Config.t) : Prop :=
  (Config.Mode c = "pool" \/ Config.Mode c = "multi-port") /\
  Config.Nodes c <> [] /\
  Forall resolvedNode (Config.Nodes c) /\
  ListenerConfig.Address (Config.Listener c) <> "" /\
  ListenerConfig.Port (Config.Listener c) <> 0 /\
  PoolConfig.Mode (Config.Pool c) <> "" /\
  PoolConfig.FailureThreshold (Config.Pool c) <> 0 /\
  PoolConfig.BlacklistDuration (Config.Pool c) <> 0 /\
  MultiPortConfig.Address (Config.MultiPort c) <> "" /\
  MultiPortConfig.BasePort (Config.MultiPort c) <> 0 /\
  ManagementConfig.Listen (Config.Management c) <> "" /\
  ManagementConfig.ProbeTarget (Config.Management c) <> "" /\
  ManagementConfig.Enabled (Config.Management c) <> None /\
  Config.LogLevel c <> "".

(** The index of the first node whose URI is empty once trimmed, if any. *)
Fixpoint firstMissingURI (nodes : list NodeConfig.t) : option nat :=
  match nodes with
  | [] => None
  | n :: rest =>
      if String.eqb (strings_TrimSpace (NodeConfig.URI n)) "" then Some 0%nat
      else option_map S (firstMissingURI rest)
  end.

(** ** Properties of the node-file reader *)

Lemma bind_Ok_inv {E A B : Type} (r : result E A) (k : A -> result E B) (b : B) :
  bind r k = Ok b -> exists a, r = Ok a /\ k a = Ok b.
Proof.
  destruct r as [a | e]; simpl; intros H.
  - exists a. split; [reflexivity | exact H].
  - discriminate H.
Qed.

Lemma loadNodes_fold (lines : list string) (acc : list NodeConfig.t) :
  fold_left loadNodes_step lines acc =
  (acc ++ map (fun line => NodeConfig.mk "" line 0 "" "")
            (filter keptLine (map strings_TrimSpace lines)))%list.
Proof.
  revert acc. induction lines as [| line lines IH]; intros acc; simpl.
  - now rewrite app_nil_r.
  - rewrite IH. unfold loadNodes_step, keptLine at 2, NodeConfig_of_URI.
    destruct (String.eqb (strings_TrimSpace line) ""); simpl; [reflexivity |].
    destruct (strings_HasPrefix (strings_TrimSpace line) "#"); simpl; [reflexivity |].
    now rewrite <- app_assoc.
Qed.

Lemma parseNodeLines_keptLines (data : string) :
  parseNodeLines data = map (fun line => NodeConfig.mk "" line 0 "" "") (keptLines data).
Proof.
  unfold parseNodeLines, keptLines. now rewrite loadNodes_fold.
Qed.

(** C8: when the file at [path] reads as [data], [loadNodesFromFile]
    returns, in file order, exactly one descriptor per line of [data] that
    after trimming is neither empty nor starts with ['#']; the URI of the
    descriptor is the trimmed line and its name, port and credentials are
    zero values. *)
Theorem loadNodesFromFile_kept_lines (path data : string) :
  os_ReadFile path = Ok data ->
  loadNodesFromFile path =
  Ok (map (fun line => NodeConfig.mk "" line 0 "" "")
        (filter (fun trimmed => negb (String.eqb trimmed "") &&
                                negb (strings_HasPrefix trimmed "#"))
           (map strings_TrimSpace (strings_Split_newline data)))).
Proof.
  intros Hread. unfold loadNodesFromFile. rewrite Hread.
  f_equal. apply parseNodeLines_keptLines.
Qed.

(** ** Properties of [ManagementEnabled] *)

(** C10: on every configuration [ManagementEnabled] returns (it does not
    panic) [true] when the enabled flag is nil and the stored boolean
    otherwise, and leaves the configuration as it was. *)
Theorem ManagementEnabled_spec (c : Config.t) :
  ManagementEnabled c =
  (Returns match ManagementConfig.Enabled (Config.Management c) with
           | None => true
           | Some b => b
           end, c).
Proof.
  unfold ManagementEnabled.
  destruct (ManagementConfig.Enabled (Config.Management c)); reflexivity.
Qed.

(** ** The stages of [normalize] *)

Ltac string_tests :=
  repeat match goal with
         | H : String.eqb _ _ = true |- _ => apply String.eqb_eq in H
         | H : String.eqb _ _ = false |- _ => apply String.eqb_neq in H
         end.

Lemma eqb_false_of_neq (s t : string) : s <> t -> String.eqb s t = false.
Proof. apply String.eqb_neq. Qed.

Lemma normalizeMode_empty (c : Config.t) :
  Config.Mode c = "" -> normalizeMode c = Ok (Config.set_Mode "pool" c).
Proof. intros H. unfold normalizeMode. repeat (rewrite H; simpl). reflexivity. Qed.

Lemma normalizeMode_alias (c : Config.t) :
  Config.Mode c = "multi_port" -> normalizeMode c = Ok (Config.set_Mode "multi-port" c).
Proof. intros H. unfold normalizeMode. repeat (rewrite H; simpl). reflexivity. Qed.

Lemma normalizeMode_canonical (c : Config.t) :
  Config.Mode c = "pool" \/ Config.Mode c = "multi-port" -> normalizeMode c = Ok c.
Proof. intros [H | H]; unfold normalizeMode; repeat (rewrite H; simpl); reflexivity. Qed.

Lemma normalizeMode_unsupported (c : Config.t) :
  ~ supportedMode (Config.Mode c) ->
  normalizeMode c = Err (ErrUnsupportedMode (Config.Mode c)).
Proof.
  unfold supportedMode. intros H. unfold normalizeMode.
  rewrite (eqb_false_of_neq (Config.Mode c) "") by (intros E; apply H; auto).
  rewrite (eqb_false_of_neq (Config.Mode c) "multi_port") by (intros E; apply H; auto).
  rewrite (eqb_false_of_neq (Config.Mode c) "pool") by (intros E; apply H; auto).
  rewrite (eqb_false_of_neq (Config.Mode c) "multi-port") by (intros E; apply H; auto).
  reflexivity.
Qed.

Lemma supportedMode_dec (m : string) : {supportedMode m} + {~ supportedMode m}.
Proof.
  unfold supportedMode.
  destruct (String.string_dec m "") as [H1 | H1]; [left; auto |].
  destruct (String.string_dec m "multi_port") as [H2 | H2]; [left; auto |].
  destruct (String.string_dec m "pool") as [H3 | H3]; [left; auto |].
  destruct (String.string_dec m "multi-port") as [H4 | H4]; [left; auto |].
  right. intros [E | [E | [E | E]]]; contradiction.
Qed.

(** What a successful mode stage leaves: only the mode changed, and it is
    canonical. *)
Lemma normalizeMode_Ok (c c1 : Config.t) :
  normalizeMode c = Ok c1 ->
  c1 = Config.set_Mode (Config.Mode c1) c /\
  (Config.Mode c1 = "pool" \/ Config.Mode c1 = "multi-port") /\
  supportedMode (Config.Mode c).
Proof.
  intros H. destruct (supportedMode_dec (Config.Mode c)) as [Hs | Hs].
  - split; [| split; [| exact Hs]].
    + destruct Hs as [E | [E | [E | E]]].
      * rewrite (normalizeMode_empty c E) in H. now inversion H.
      * rewrite (normalizeMode_alias c E) in H. now inversion H.
      * rewrite (normalizeMode_canonical c (or_introl E)) in H. inversion H. now destruct c1.
      * rewrite (normalizeMode_canonical c (or_intror E)) in H. inversion H. now destruct c1.
    + destruct Hs as [E | [E | [E | E]]].
      * rewrite (normalizeMode_empty c E) in H. inversion H. now left.
      * rewrite (normalizeMode_alias c E) in H. inversion H. now right.
      * rewrite (normalizeMode_canonical c (or_introl E)) in H. inversion H. subst. now left.
      * rewrite (normalizeMode_canonical c (or_intror E)) in H. inversion H. subst. now right.
  - rewrite (normalizeMode_unsupported c Hs) in H. discriminate H.
Qed.

(** The merge stage on its own: the inline nodes followed by [F], the
    nodes of the file, or the inline nodes when no file is configured. *)
Lemma mergeNodes_Ok (c c2 : Config.t) :
  mergeNodes c = Ok c2 ->
  exists F,
    c2 = Config.set_Nodes (Config.Nodes c ++ F)%list c /\
    ((Config.NodesFile c = "" /\ F = []) \/
     (Config.NodesFile c <> "" /\ loadNodesFromFile (Config.NodesFile c) = Ok F)).
Proof.
  unfold mergeNodes. intros H.
  destruct (String.eqb (Config.NodesFile c) "") eqn:E; simpl in H; string_tests.
  - exists []. split; [| left; now split].
    inversion H. subst. rewrite app_nil_r. now destruct c2.
  - destruct (loadNodesFromFile (Config.NodesFile c)) as [F | err] eqn:EF; [| discriminate H].
    exists F. split; [now inversion H | right; now split].
Qed.

Lemma mergeNodes_Err_is_load (c : Config.t) (e : config_error) :
  mergeNodes c = Err e -> exists path cause, e = ErrLoadNodesFile path cause.
Proof.
  unfold mergeNodes. intros H.
  destruct (negb (String.eqb (Config.NodesFile c) "")); [| discriminate H].
  destruct (loadNodesFromFile (Config.NodesFile c)) as [F | err]; [discriminate H |].
  inversion H. now eexists; eexists.
Qed.

(** Where the loop stops with an error, the error is a missing URI. *)
Lemma normalizeNodes_Err_is_missing_uri (mode : string) (mp : MultiPortConfig.t)
    (nodes : list NodeConfig.t) (idx : nat) (p : Z) (e : config_error) :
  normalizeNodes mode mp idx p nodes = Err e -> exists i, e = ErrMissingURI i.
Proof.
  revert idx p. induction nodes as [| n rest IH]; intros idx p H; simpl in H.
  - discriminate H.
  - destruct (normalizeNode mode mp idx p n) as [r | e1] eqn:E1; simpl in H.
    + destruct (normalizeNodes mode mp (S idx) (snd r) rest) as [rest' | e2] eqn:E2;
        simpl in H; [discriminate H |].
      inversion H; subst. exact (IH _ _ E2).
    + inversion H; subst. unfold normalizeNode in E1.
      destruct (String.eqb _ _) in E1.
      * inversion E1. now eexists.
      * destruct (NodeConfig.Port _ =? 0) in E1; discriminate E1.
Qed.

(** A successful [normalize], stage by stage. *)
Lemma normalize_Ok_inv (c c' : Config.t) :
  normalize c = Ok c' ->
  exists c1 F nodes,
    normalizeMode c = Ok c1 /\
    ((Config.NodesFile c = "" /\ F = []) \/
     (Config.NodesFile c <> "" /\ loadNodesFromFile (Config.NodesFile c) = Ok F)) /\
    (Config.Nodes c ++ F)%list <> [] /\
    normalizeNodes (Config.Mode c1) (defaultMultiPort (Config.MultiPort c)) 0
      (MultiPortConfig.BasePort (defaultMultiPort (Config.MultiPort c)))
      (Config.Nodes c ++ F)%list = Ok nodes /\
    c' = defaultLogLevel (Config.set_Nodes nodes (applyDefaults c1)).
Proof.
  unfold normalize. intros H.
  apply bind_Ok_inv in H. destruct H as [c1 [H1 H]].
  apply bind_Ok_inv in H. destruct H as [c2 [H2 H]].
  destruct (normalizeMode_Ok _ _ H1) as [Ec1 _].
  destruct (mergeNodes_Ok _ _ H2) as [F [Ec2 HF]].
  assert (Hn : Config.Nodes (applyDefaults c1) = Config.Nodes c) by (rewrite Ec1; reflexivity).
  assert (Hf : Config.NodesFile (applyDefaults c1) = Config.NodesFile c) by (rewrite Ec1; reflexivity).
  assert (Hm : Config.MultiPort (applyDefaults c1) = defaultMultiPort (Config.MultiPort c))
    by (rewrite Ec1; reflexivity).
  rewrite Hn in Ec2. rewrite Hf in HF.
  destruct (List.length (Config.Nodes c2) =? 0)%nat eqn:El; [discriminate H |].
  apply bind_Ok_inv in H. destruct H as [nodes [H3 H]].
  exists c1, F, nodes.
  assert (Hn2 : Config.Nodes c2 = (Config.Nodes c ++ F)%list) by (rewrite Ec2; reflexivity).
  assert (Hmode2 : Config.Mode c2 = Config.Mode c1) by (rewrite Ec2; reflexivity).
  assert (Hmp2 : Config.MultiPort c2 = defaultMultiPort (Config.MultiPort c))
    by (rewrite Ec2; simpl; exact Hm).
  rewrite Hn2, Hmode2, Hmp2 in H3.
  repeat split; try assumption.
  - intros Hnil. rewrite Hn2, Hnil in El. discriminate El.
  - inversion H. unfold defaultLogLevel. rewrite Ec2. reflexivity.
Qed.

Lemma normalize_Ok_Mode (c c' : Config.t) :
  normalize c = Ok c' ->
  exists c1, normalizeMode c = Ok c1 /\ Config.Mode c' = Config.Mode c1.
Proof.
  intros H. destruct (normalize_Ok_inv _ _ H) as [c1 [F [nodes [H1 [_ [_ [_ Ec']]]]]]].
  exists c1. split; [exact H1 |]. rewrite Ec'. unfold defaultLogLevel.
  destruct (String.eqb _ _); reflexivity.
Qed.

(** C3: an empty mode resolves to ["pool"], the alias ["multi_port"] to
    ["multi-port"], the two canonical modes to themselves (the mode stage
    succeeds with that value, and a configuration [normalize] returns
    carries it), and any other mode makes [normalize] fail with the
    unsupported-mode error that carries the offending value. *)
Theorem normalize_mode_cases (c : Config.t) :
  (Config.Mode c = "" ->
   normalizeMode c = Ok (Config.set_Mode "pool" c) /\
   forall c', normalize c = Ok c' -> Config.Mode c' = "pool") /\
  (Config.Mode c = "multi_port" ->
   normalizeMode c = Ok (Config.set_Mode "multi-port" c) /\
   forall c', normalize c = Ok c' -> Config.Mode c' = "multi-port") /\
  (Config.Mode c = "pool" \/ Config.Mode c = "multi-port" ->
   normalizeMode c = Ok c /\
   forall c', normalize c = Ok c' -> Config.Mode c' = Config.Mode c) /\
  (Config.Mode c <> "" -> Config.Mode c <> "multi_port" ->
   Config.Mode c <> "pool" -> Config.Mode c <> "multi-port" ->
   normalize c = Err (ErrUnsupportedMode (Config.Mode c))).
Proof.
  repeat split.
  - now apply normalizeMode_empty.
  - intros c' Hc'. destruct (normalize_Ok_Mode _ _ Hc') as [c1 [H1 E]].
    rewrite (normalizeMode_empty c H) in H1. inversion H1; subst. exact E.
  - now apply normalizeMode_alias.
  - intros c' Hc'. destruct (normalize_Ok_Mode _ _ Hc') as [c1 [H1 E]].
    rewrite (normalizeMode_alias c H) in H1. inversion H1; subst. exact E.
  - now apply normalizeMode_canonical.
  - intros c' Hc'. destruct (normalize_Ok_Mode _ _ Hc') as [c1 [H1 E]].
    rewrite (normalizeMode_canonical c H) in H1. inversion H1; subst. exact E.
  - intros H1 H2 H3 H4. unfold normalize.
    rewrite normalizeMode_unsupported; [reflexivity |].
    unfold supportedMode. intros [E | [E | [E | E]]]; contradiction.
Qed.

(** ** One iteration of the node loop *)

Lemma Sprintf_node_nonempty (idx : nat) : Sprintf_node idx <> "".
Proof. unfold Sprintf_node. simpl. discriminate. Qed.

Lemma nameFromFragment_fields (n : NodeConfig.t) :
  NodeConfig.URI (nameFromFragment n) = NodeConfig.URI n /\
  NodeConfig.Port (nameFromFragment n) = NodeConfig.Port n /\
  NodeConfig.Username (nameFromFragment n) = NodeConfig.Username n /\
  NodeConfig.Password (nameFromFragment n) = NodeConfig.Password n.
Proof.
  unfold nameFromFragment.
  destruct (String.eqb (NodeConfig.Name n) ""); [| now repeat split].
  destruct (url_Parse (NodeConfig.URI n)) as [parsed | err]; [| now repeat split].
  destruct (negb (String.eqb (url.Fragment parsed) "")); [| now repeat split].
  destruct (url_QueryUnescape (url.Fragment parsed)); simpl; now repeat split.
Qed.

(** Every field of the node an iteration returns, and the cursor after it. *)
Lemma normalizeNode_Ok (mode : string) (mp : MultiPortConfig.t) (idx : nat) (p : Z)
    (n : NodeConfig.t) (r : NodeConfig.t * Z) :
  normalizeNode mode mp idx p n = Ok r ->
  strings_TrimSpace (NodeConfig.URI n) <> "" /\
  NodeConfig.URI (fst r) = strings_TrimSpace (NodeConfig.URI n) /\
  NodeConfig.Name (fst r) = derivedName n idx /\
  NodeConfig.Port (fst r) = (if NodeConfig.Port n =? 0 then p else NodeConfig.Port n) /\
  snd r = (if NodeConfig.Port n =? 0 then uint16_incr p else p) /\
  NodeConfig.Username (fst r) =
    (if String.eqb mode "multi-port" && String.eqb (NodeConfig.Username n) ""
     then MultiPortConfig.Username mp else NodeConfig.Username n) /\
  NodeConfig.Password (fst r) =
    (if String.eqb mode "multi-port" && String.eqb (NodeConfig.Username n) ""
     then MultiPortConfig.Password mp else NodeConfig.Password n).
Proof.
  unfold normalizeNode, derivedName. intros H.
  destruct (nameFromFragment_fields (trimmedNode n)) as [EU [EP [EUs EPw]]].
  simpl in EU, EP, EUs, EPw.
  destruct (String.eqb (NodeConfig.URI (trimmedNode n)) "") eqn:Euri; [discriminate H |].
  simpl in Euri. apply String.eqb_neq in Euri.
  split; [exact Euri |].
  remember (nameFromFragment (trimmedNode n)) as m eqn:Em.
  destruct (String.eqb (NodeConfig.Name m) "");
    simpl in H; rewrite EP in H;
    destruct (NodeConfig.Port n =? 0);
    destruct (String.eqb mode "multi-port"); simpl in H |- *;
    try rewrite EUs in H;
    try destruct (String.eqb (NodeConfig.Username n) "");
    inversion H; subst r; simpl; repeat split; congruence.
Qed.

Lemma derivedName_nonempty (n : NodeConfig.t) (idx : nat) : derivedName n idx <> "".
Proof.
  unfold derivedName.
  destruct (String.eqb _ "") eqn:E.
  - apply Sprintf_node_nonempty.
  - now apply String.eqb_neq in E.
Qed.

(** ** The node loop *)

Lemma normalizeNodes_Ok_nth (mode : string) (mp : MultiPortConfig.t)
    (nodes : list NodeConfig.t) :
  forall (idx : nat) (p : Z) (nodes' : list NodeConfig.t),
    normalizeNodes mode mp idx p nodes = Ok nodes' ->
    List.length nodes' = List.length nodes /\
    forall (i : nat) (n : NodeConfig.t),
      nth_error nodes i = Some n ->
      exists n',
        nth_error nodes' i = Some n' /\
        normalizeNode mode mp (idx + i) (cursorAfter p (firstn i nodes)) n =
        Ok (n', cursorAfter p (firstn (S i) nodes)).
Proof.
  induction nodes as [| n0 rest IH]; intros idx p nodes' H; simpl in H.
  - inversion H; subst. split; [reflexivity |].
    intros i n Hn. destruct i; discriminate Hn.
  - apply bind_Ok_inv in H. destruct H as [r [Hr H]].
    apply bind_Ok_inv in H. destruct H as [rest' [Hrest H]].
    inversion H; subst nodes'; clear H.
    destruct (IH _ _ _ Hrest) as [Hlen Hnth].
    split; [simpl; now rewrite Hlen |].
    destruct (normalizeNode_Ok _ _ _ _ _ _ Hr) as [_ [_ [_ [_ [Hsnd _]]]]].
    intros i n Hn. destruct i as [| i]; simpl in Hn.
    + inversion Hn; subst n0. exists (fst r). split; [reflexivity |].
      simpl. rewrite Nat.add_0_r, <- Hsnd. now destruct r.
    + destruct (Hnth i n Hn) as [n' [Hn' Hstep]].
      exists n'. split; [exact Hn' |].
      rewrite Nat.add_succ_r. simpl in Hstep |- *. rewrite <- Hsnd. exact Hstep.
Qed.

(** ** [normalize] as a whole *)

Lemma fileNodes_functional (c : Config.t) (F G : list NodeConfig.t) :
  fileNodes c F -> fileNodes c G -> F = G.
Proof.
  intros [[E1 HF] | [N1 HF]] [[E2 HG] | [N2 HG]]; try congruence.
Qed.

Lemma mergeNodes_after_mode (c c1 : Config.t) (F : list NodeConfig.t) :
  normalizeMode c = Ok c1 ->
  fileNodes c F ->
  mergeNodes (applyDefaults c1) =
  Ok (Config.set_Nodes (Config.Nodes c ++ F)%list (applyDefaults c1)).
Proof.
  intros H1 HF. destruct (normalizeMode_Ok _ _ H1) as [Ec1 _].
  unfold mergeNodes.
  replace (Config.NodesFile (applyDefaults c1)) with (Config.NodesFile c)
    by (rewrite Ec1; reflexivity).
  replace (Config.Nodes (applyDefaults c1)) with (Config.Nodes c)
    by (rewrite Ec1; reflexivity).
  destruct HF as [[E HF] | [N HF]].
  - rewrite E. simpl. subst F. rewrite app_nil_r.
    f_equal. rewrite Ec1. reflexivity.
  - rewrite (eqb_false_of_neq _ _ N). simpl. rewrite HF. reflexivity.
Qed.

(** After a successful mode stage, [normalize] is the node loop over the
    inline nodes followed by the nodes of the file. *)
Lemma normalize_unfold (c c1 : Config.t) (F : list NodeConfig.t) :
  normalizeMode c = Ok c1 ->
  fileNodes c F ->
  normalize c =
  match (Config.Nodes c ++ F)%list with
  | [] => Err ErrNodesEmpty
  | _ :: _ =>
      nodes <- normalizeNodes (Config.Mode c1) (defaultMultiPort (Config.MultiPort c)) 0
                 (MultiPortConfig.BasePort (defaultMultiPort (Config.MultiPort c)))
                 (Config.Nodes c ++ F)%list;;
      Ok (defaultLogLevel (Config.set_Nodes nodes (applyDefaults c1)))
  end.
Proof.
  intros H1 HF. unfold normalize. rewrite H1. simpl bind.
  destruct (normalizeMode_Ok _ _ H1) as [Ec1 _].
  pose proof (mergeNodes_after_mode _ _ _ H1 HF) as Hm.
  assert (HMP : Config.MultiPort c1 = Config.MultiPort c) by (rewrite Ec1; reflexivity).
  rewrite Hm. simpl bind. rewrite <- HMP.
  destruct (Config.Nodes c ++ F)%list as [| n0 rest]; reflexivity.
Qed.

(** The fields of a configuration [normalize] returns. *)
Lemma normalize_Ok_fields (c c' : Config.t) :
  normalize c = Ok c' ->
  exists F,
    fileNodes c F /\
    (Config.Nodes c ++ F)%list <> [] /\
    (Config.Mode c' = "pool" \/ Config.Mode c' = "multi-port") /\
    Config.Listener c' = defaultListener (Config.Listener c) /\
    Config.Pool c' = defaultPool (Config.Pool c) /\
    Config.MultiPort c' = defaultMultiPort (Config.MultiPort c) /\
    Config.Management c' = defaultManagement (Config.Management c) /\
    Config.LogLevel c' =
      (if String.eqb (Config.LogLevel c) "" then "info" else Config.LogLevel c) /\
    normalizeNodes (Config.Mode c') (Config.MultiPort c') 0
      (MultiPortConfig.BasePort (Config.MultiPort c')) (Config.Nodes c ++ F)%list =
    Ok (Config.Nodes c').
Proof.
  intros H. destruct (normalize_Ok_inv _ _ H) as [c1 [F [nodes [H1 [HF [Hne [Hloop Ec']]]]]]].
  destruct (normalizeMode_Ok _ _ H1) as [Ec1 [Hmode _]].
  exists F. split; [exact HF |]. split; [exact Hne |].
  assert (Hll : Config.LogLevel c1 = Config.LogLevel c) by (rewrite Ec1; reflexivity).
  assert (HL : Config.Listener (applyDefaults c1) = defaultListener (Config.Listener c))
    by (rewrite Ec1; reflexivity).
  assert (HP : Config.Pool (applyDefaults c1) = defaultPool (Config.Pool c))
    by (rewrite Ec1; reflexivity).
  assert (HM : Config.MultiPort (applyDefaults c1) = defaultMultiPort (Config.MultiPort c))
    by (rewrite Ec1; reflexivity).
  assert (HG : Config.Management (applyDefaults c1) = defaultManagement (Config.Management c))
    by (rewrite Ec1; reflexivity).
  subst c'. unfold defaultLogLevel.
  replace (Config.LogLevel (Config.set_Nodes nodes (applyDefaults c1)))
    with (Config.LogLevel c) by (rewrite <- Hll; reflexivity).
  destruct (String.eqb (Config.LogLevel c) "") eqn:El; simpl;
    rewrite ?HL, ?HP, ?HM, ?HG; repeat split; try assumption; try reflexivity.
  all: replace (Config.MultiPort c1) with (Config.MultiPort c) by (rewrite Ec1; reflexivity).
  all: exact Hloop.
Qed.

(** The node at index [i] of the configuration [normalize] returns is
    the result of the loop body on the node at index [i] of the merged
    list. *)
Lemma normalize_node_at (c c' : Config.t) (F : list NodeConfig.t) (i : nat)
    (n : NodeConfig.t) :
  normalize c = Ok c' ->
  fileNodes c F ->
  nth_error (Config.Nodes c ++ F)%list i = Some n ->
  exists n',
    nth_error (Config.Nodes c') i = Some n' /\
    normalizeNode (Config.Mode c') (Config.MultiPort c') i
      (cursorAfter (MultiPortConfig.BasePort (Config.MultiPort c'))
         (firstn i (Config.Nodes c ++ F)%list)) n =
    Ok (n', cursorAfter (MultiPortConfig.BasePort (Config.MultiPort c'))
              (firstn (S i) (Config.Nodes c ++ F)%list)).
Proof.
  intros H HF Hn.
  destruct (normalize_Ok_fields _ _ H) as [G [HG [_ [_ [_ [_ [_ [_ [_ Hloop]]]]]]]]].
  rewrite (fileNodes_functional _ _ _ HF HG) in Hn |- *.
  destruct (normalizeNodes_Ok_nth _ _ _ _ _ _ Hloop) as [_ Hnth].
  exact (Hnth i n Hn).
Qed.

(** ** Names *)



(** ** Credentials *)

(** C5: in a configuration [normalize] returns, the node at index [i] of
    the merged list has the username and the password of the multi-port
    defaults, both, when the resolved mode is ["multi-port"] and its
    username was empty, and its own username and password in every other
    case; in ["pool"] mode they are always its own. *)
Theorem normalize_credentials (c c' : Config.t) (F : list NodeConfig.t) (i : nat)
    (n : NodeConfig.t) :
  normalize c = Ok c' ->
  (Config.NodesFile c = "" /\ F = [] \/
   Config.NodesFile c <> "" /\ loadNodesFromFile (Config.NodesFile c) = Ok F) ->
  nth_error (Config.Nodes c ++ F)%list i = Some n ->
  exists n',
    nth_error (Config.Nodes c') i = Some n' /\
    (Config.Mode c' = "multi-port" /\ NodeConfig.Username n = "" ->
     NodeConfig.Username n' = MultiPortConfig.Username (Config.MultiPort c) /\
     NodeConfig.Password n' = MultiPortConfig.Password (Config.MultiPort c)) /\
    (~ (Config.Mode c' = "multi-port" /\ NodeConfig.Username n = "") ->
     NodeConfig.Username n' = NodeConfig.Username n /\
     NodeConfig.Password n' = NodeConfig.Password n) /\
    (Config.Mode c' = "pool" ->
     NodeConfig.Username n' = NodeConfig.Username n /\
     NodeConfig.Password n' = NodeConfig.Password n).
Proof.
  intros H HF Hn.
  destruct (normalize_node_at _ _ _ _ _ H HF Hn) as [n' [Hn' Hstep]].
  exists n'. split; [exact Hn' |].
  destruct (normalizeNode_Ok _ _ _ _ _ _ Hstep) as [_ [_ [_ [_ [_ [Hu Hp]]]]]].
  simpl in Hu, Hp.
  destruct (normalize_Ok_fields _ _ H) as [G [_ [_ [_ [_ [_ [Hmp _]]]]]]].
  rewrite Hmp in Hu, Hp. simpl in Hu, Hp.
  destruct (String.eqb (Config.Mode c') "multi-port") eqn:Em;
    destruct (String.eqb (NodeConfig.Username n) "") eqn:Eu;
    simpl in Hu, Hp; string_tests;
    (split; [intros [A B] | split; intros K]);
    first [ split; assumption
          | contradiction
          | exfalso; apply K; split; assumption
          | rewrite K in Em; discriminate Em ].
Qed.

(** ** The merge of the two node sources *)

Lemma normalizeMode_supported (c : Config.t) :
  supportedMode (Config.Mode c) -> exists c1, normalizeMode c = Ok c1.
Proof.
  intros [E | [E | [E | E]]].
  - eexists. now apply normalizeMode_empty.
  - eexists. now apply normalizeMode_alias.
  - eexists. apply normalizeMode_canonical. now left.
  - eexists. apply normalizeMode_canonical. now right.
Qed.

Lemma normalize_load_error (c c1 : Config.t) (err : lib_error) :
  normalizeMode c = Ok c1 ->
  Config.NodesFile c <> "" ->
  loadNodesFromFile (Config.NodesFile c) = Err err ->
  normalize c = Err (ErrLoadNodesFile (Config.NodesFile c) err).
Proof.
  intros H1 N HL. destruct (normalizeMode_Ok _ _ H1) as [Ec1 _].
  unfold normalize. rewrite H1. simpl bind. unfold mergeNodes.
  replace (Config.NodesFile (applyDefaults c1)) with (Config.NodesFile c)
    by (rewrite Ec1; reflexivity).
  rewrite (eqb_false_of_neq _ _ N). simpl. rewrite HL. reflexivity.
Qed.

(** C6: once the mode is accepted, the merge stage yields the inline
    nodes followed by the descriptors [F] of the node file, in that order
    (the inline nodes alone when no file is configured); the node loop of
    [normalize] runs over exactly that list, and the configuration returned
    has one node per merged node, at the same index, with the URI of that
    node trimmed. *)
Theorem normalize_merge_order (c c1 : Config.t) (F : list NodeConfig.t) :
  normalizeMode c = Ok c1 ->
  (Config.NodesFile c = "" /\ F = [] \/
   Config.NodesFile c <> "" /\ loadNodesFromFile (Config.NodesFile c) = Ok F) ->
  mergeNodes (applyDefaults c1) =
    Ok (Config.set_Nodes (Config.Nodes c ++ F)%list (applyDefaults c1)) /\
  (Config.NodesFile c = "" -> (Config.Nodes c ++ F)%list = Config.Nodes c) /\
  normalize c =
    match (Config.Nodes c ++ F)%list with
    | [] => Err ErrNodesEmpty
    | _ :: _ =>
        nodes <- normalizeNodes (Config.Mode c1) (defaultMultiPort (Config.MultiPort c)) 0
                   (MultiPortConfig.BasePort (defaultMultiPort (Config.MultiPort c)))
                   (Config.Nodes c ++ F)%list;;
        Ok (defaultLogLevel (Config.set_Nodes nodes (applyDefaults c1)))
    end /\
  (forall c', normalize c = Ok c' ->
     List.length (Config.Nodes c') = (List.length (Config.Nodes c) + List.length F)%nat /\
     forall i n, nth_error (Config.Nodes c ++ F)%list i = Some n ->
       exists n', nth_error (Config.Nodes c') i = Some n' /\
                  NodeConfig.URI n' = strings_TrimSpace (NodeConfig.URI n)).
Proof.
  intros H1 HF. split; [now apply mergeNodes_after_mode |].
  split.
  { intros E. destruct HF as [[_ HF] | [N _]]; [subst F; apply app_nil_r | contradiction]. }
  split; [now apply normalize_unfold |].
  intros c' H. split.
  - destruct (normalize_Ok_fields _ _ H) as [G [HG [_ [_ [_ [_ [_ [_ [_ Hloop]]]]]]]]].
    rewrite <- (fileNodes_functional _ _ _ HF HG) in Hloop.
    destruct (normalizeNodes_Ok_nth _ _ _ _ _ _ Hloop) as [Hlen _].
    rewrite Hlen. apply length_app.
  - intros i n Hn.
    destruct (normalize_node_at _ _ _ _ _ H HF Hn) as [n' [Hn' Hstep]].
    exists n'. split; [exact Hn' |].
    destruct (normalizeNode_Ok _ _ _ _ _ _ Hstep) as [_ [Huri _]]. exact Huri.
Qed.

(** ** The empty node list *)

Lemma keptLines_all_skipped (lines : list string) :
  Forall (fun line => strings_TrimSpace line = "" \/
                      strings_HasPrefix (strings_TrimSpace line) "#" = true) lines ->
  filter keptLine (map strings_TrimSpace lines) = [].
Proof.
  induction 1 as [| line lines Hline _ IH]; simpl; [reflexivity |].
  unfold keptLine at 1. destruct Hline as [E | E]; rewrite E; simpl.
  - exact IH.
  - rewrite andb_false_r. exact IH.
Qed.

Lemma normalize_not_empty_error (c c1 : Config.t) (F : list NodeConfig.t) :
  normalizeMode c = Ok c1 ->
  fileNodes c F ->
  (Config.Nodes c ++ F)%list <> [] ->
  normalize c <> Err ErrNodesEmpty.
Proof.
  intros H1 HF Hne H. rewrite (normalize_unfold _ _ _ H1 HF) in H.
  destruct (Config.Nodes c ++ F)%list as [| n0 rest] eqn:EL; [now apply Hne |].
  destruct (normalizeNodes (Config.Mode c1) (defaultMultiPort (Config.MultiPort c)) 0
              (MultiPortConfig.BasePort (defaultMultiPort (Config.MultiPort c)))
              (n0 :: rest)) as [nodes | e] eqn:E; simpl in H; [discriminate H |].
  destruct (normalizeNodes_Err_is_missing_uri _ _ _ _ _ _ E) as [i Ei].
  subst e. discriminate H.
Qed.

(** C7: [normalize] returns the empty-node-list error exactly when the
    mode is accepted and the merged list (the inline nodes followed by the
    nodes of the file, if one is configured and read) is empty.  A
    configuration with no inline node and no node file fails, and so does
    one with no inline node whose node file has only blank and comment
    lines; whenever the mode is accepted the failure is the empty-node-list
    error. *)
Theorem normalize_empty_nodes (c : Config.t) :
  (normalize c = Err ErrNodesEmpty <->
   supportedMode (Config.Mode c) /\
   exists F,
     (Config.NodesFile c = "" /\ F = [] \/
      Config.NodesFile c <> "" /\ loadNodesFromFile (Config.NodesFile c) = Ok F) /\
     (Config.Nodes c ++ F)%list = []) /\
  (Config.Nodes c = [] -> Config.NodesFile c = "" ->
   exists e, normalize c = Err e /\
             (supportedMode (Config.Mode c) -> e = ErrNodesEmpty)) /\
  (forall data,
     Config.Nodes c = [] -> Config.NodesFile c <> "" ->
     os_ReadFile (Config.NodesFile c) = Ok data ->
     Forall (fun line => strings_TrimSpace line = "" \/
                         strings_HasPrefix (strings_TrimSpace line) "#" = true)
       (strings_Split_newline data) ->
     exists e, normalize c = Err e /\
               (supportedMode (Config.Mode c) -> e = ErrNodesEmpty)).
Proof.
  assert (Hempty : forall F, fileNodes c F -> (Config.Nodes c ++ F)%list = [] ->
            exists e, normalize c = Err e /\
                      (supportedMode (Config.Mode c) -> e = ErrNodesEmpty)).
  { intros F HF HE. destruct (supportedMode_dec (Config.Mode c)) as [Hs | Hs].
    - destruct (normalizeMode_supported _ Hs) as [c1 H1].
      exists ErrNodesEmpty. split; [| reflexivity].
      rewrite (normalize_unfold _ _ _ H1 HF), HE. reflexivity.
    - exists (ErrUnsupportedMode (Config.Mode c)). split; [| contradiction].
      unfold normalize. now rewrite (normalizeMode_unsupported _ Hs). }
  split; [| split].
  - split.
    + intros H. destruct (supportedMode_dec (Config.Mode c)) as [Hs | Hs].
      * split; [exact Hs |]. destruct (normalizeMode_supported _ Hs) as [c1 H1].
        destruct (String.string_dec (Config.NodesFile c) "") as [E | N].
        -- exists []. split; [left; now split |].
           destruct (Config.Nodes c ++ [])%list as [| n0 rest] eqn:EL; [reflexivity |].
           exfalso. apply (normalize_not_empty_error c c1 []); try assumption.
           ++ left. now split.
           ++ rewrite EL. discriminate.
        -- destruct (loadNodesFromFile (Config.NodesFile c)) as [F | err] eqn:EF.
           ++ exists F. split; [right; now split |].
              destruct (Config.Nodes c ++ F)%list as [| n0 rest] eqn:EL; [reflexivity |].
              exfalso. apply (normalize_not_empty_error c c1 F); try assumption.
              ** right. now split.
              ** rewrite EL. discriminate.
           ++ rewrite (normalize_load_error _ _ _ H1 N EF) in H. discriminate H.
      * unfold normalize in H. rewrite (normalizeMode_unsupported _ Hs) in H.
        discriminate H.
    + intros [Hs [F [HF HE]]]. destruct (normalizeMode_supported _ Hs) as [c1 H1].
      rewrite (normalize_unfold _ _ _ H1 HF), HE. reflexivity.
  - intros Hn Hf. apply (Hempty []).
    + left. now split.
    + rewrite Hn. reflexivity.
  - intros data Hn Hf Hread Hlines. apply (Hempty []).
    + right. split; [exact Hf |].
      unfold loadNodesFromFile. rewrite Hread. f_equal.
      rewrite parseNodeLines_keptLines. unfold keptLines.
      now rewrite keptLines_all_skipped.
    + rewrite Hn. reflexivity.
Qed.

(** ** Ports *)

Lemma normalizeNodes_ports (mode : string) (mp : MultiPortConfig.t)
    (nodes : list NodeConfig.t) :
  forall (idx : nat) (p : Z) (nodes' : list NodeConfig.t),
    normalizeNodes mode mp idx p nodes = Ok nodes' ->
    map NodeConfig.Port nodes' = assignedPorts p nodes.
Proof.
  induction nodes as [| n0 rest IH]; intros idx p nodes' H; simpl in H.
  - now inversion H.
  - apply bind_Ok_inv in H. destruct H as [r [Hr H]].
    apply bind_Ok_inv in H. destruct H as [rest' [Hrest H]].
    inversion H; subst nodes'; clear H.
    destruct (normalizeNode_Ok _ _ _ _ _ _ Hr) as [_ [_ [_ [Hport [Hsnd _]]]]].
    simpl. rewrite Hport, (IH _ _ _ Hrest), Hsnd.
    destruct (NodeConfig.Port n0 =? 0); reflexivity.
Qed.

Lemma normalizeNodes_names_uris (mode : string) (mp : MultiPortConfig.t)
    (nodes : list NodeConfig.t) :
  forall (idx : nat) (p : Z) (nodes' : list NodeConfig.t),
    normalizeNodes mode mp idx p nodes = Ok nodes' ->
    Forall (fun n => NodeConfig.Name n <> "" /\ NodeConfig.URI n <> "") nodes'.
Proof.
  induction nodes as [| n0 rest IH]; intros idx p nodes' H; simpl in H.
  - inversion H. constructor.
  - apply bind_Ok_inv in H. destruct H as [r [Hr H]].
    apply bind_Ok_inv in H. destruct H as [rest' [Hrest H]].
    inversion H; subst nodes'; clear H.
    destruct (normalizeNode_Ok _ _ _ _ _ _ Hr) as [Hne [Huri [Hname _]]].
    constructor; [| exact (IH _ _ _ Hrest)].
    split.
    + rewrite Hname. apply derivedName_nonempty.
    + now rewrite Huri.
Qed.

(** The ports of a configuration [normalize] returns. *)
Lemma normalize_ports (c c' : Config.t) (F : list NodeConfig.t) :
  normalize c = Ok c' ->
  fileNodes c F ->
  map NodeConfig.Port (Config.Nodes c') =
  assignedPorts (MultiPortConfig.BasePort (defaultMultiPort (Config.MultiPort c)))
    (Config.Nodes c ++ F)%list.
Proof.
  intros H HF.
  destruct (normalize_Ok_fields _ _ H) as [G [HG [_ [_ [_ [_ [Hmp [_ [_ Hloop]]]]]]]]].
  rewrite <- (fileNodes_functional _ _ _ HF HG) in Hloop.
  rewrite <- Hmp. exact (normalizeNodes_ports _ _ _ _ _ _ Hloop).
Qed.

Lemma uint16_incr_small (p : Z) : 0 <= p -> p + 1 < uint16_modulus -> uint16_incr p = p + 1.
Proof. intros H0 H1. unfold uint16_incr. apply Z.mod_small. lia. Qed.

Lemma contiguousPorts_cons (p : Z) (k : nat) :
  contiguousPorts p (S k) = p :: contiguousPorts (p + 1) k.
Proof.
  unfold contiguousPorts. simpl. rewrite Z.add_0_r. f_equal.
  rewrite <- seq_shift, map_map. apply map_ext. intros a. lia.
Qed.

(** While the cursor stays below 65536, nodes without a port get
    consecutive ports. *)
Lemma assignedPorts_contiguous (nodes : list NodeConfig.t) :
  forall p : Z,
    Forall (fun n => NodeConfig.Port n = 0) nodes ->
    0 <= p ->
    p + Z.of_nat (List.length nodes) <= uint16_modulus ->
    assignedPorts p nodes = contiguousPorts p (List.length nodes).
Proof.
  induction nodes as [| n0 rest IH]; intros p Hz H0 Hb.
  - reflexivity.
  - inversion Hz as [| x l Hport Hrest]; subst.
    cbn [assignedPorts List.length]. rewrite Hport, contiguousPorts_cons. simpl Z.eqb. cbv iota.
    f_equal. destruct rest as [| n1 rest'].
    + reflexivity.
    + cbn [List.length] in Hb. rewrite uint16_incr_small by lia.
      apply IH; [exact Hrest | lia |]. cbn [List.length]. lia.
Qed.

Lemma assignedPorts_all_explicit (nodes : list NodeConfig.t) :
  forall q : Z,
    zeroPorts nodes = 0%nat ->
    Forall (fun r => r <> 0) (assignedPorts q nodes).
Proof.
  induction nodes as [| n0 rest IH]; intros q Hk; [constructor |].
  unfold zeroPorts in Hk. simpl in Hk |- *.
  destruct (NodeConfig.Port n0 =? 0) eqn:E; [discriminate Hk |].
  constructor; [now apply Z.eqb_neq in E | now apply IH].
Qed.

(** While the cursor stays below 65536, every port is nonzero. *)
Lemma assignedPorts_nonzero (nodes : list NodeConfig.t) :
  forall p : Z,
    0 < p ->
    p + Z.of_nat (zeroPorts nodes) <= uint16_modulus ->
    Forall (fun q => q <> 0) (assignedPorts p nodes).
Proof.
  induction nodes as [| n0 rest IH]; intros p H0 Hb.
  - constructor.
  - unfold zeroPorts in Hb. simpl in Hb |- *.
    destruct (NodeConfig.Port n0 =? 0) eqn:E.
    + cbn [List.length] in Hb. fold (zeroPorts rest) in Hb.
      constructor; [lia |].
      destruct (Nat.eq_dec (zeroPorts rest) 0) as [Ek | Ek].
      * now apply assignedPorts_all_explicit.
      * rewrite uint16_incr_small by lia. apply IH; lia.
    + constructor; [now apply Z.eqb_neq in E |]. apply IH; [exact H0 | exact Hb].
Qed.

(** X18: when no node has an explicit port and the block of ports fits
    below 65536, the resolved ports are the base port and its successors,
    in merged-list order, in either mode. *)
Lemma normalize_ports_contiguous_no_wrap (c c' : Config.t) (F : list NodeConfig.t) :
  normalize c = Ok c' ->
  fileNodes c F ->
  Forall (fun n => NodeConfig.Port n = 0) (Config.Nodes c ++ F)%list ->
  is_uint16 (MultiPortConfig.BasePort (Config.MultiPort c)) ->
  MultiPortConfig.BasePort (Config.MultiPort c') +
    Z.of_nat (List.length (Config.Nodes c ++ F)%list) <= uint16_modulus ->
  MultiPortConfig.BasePort (Config.MultiPort c') =
    (if MultiPortConfig.BasePort (Config.MultiPort c) =? 0 then 28000
     else MultiPortConfig.BasePort (Config.MultiPort c)) /\
  map NodeConfig.Port (Config.Nodes c') =
    contiguousPorts (MultiPortConfig.BasePort (Config.MultiPort c'))
      (List.length (Config.Nodes c ++ F)%list).
Proof.
  intros H HF Hz Hu Hb.
  destruct (normalize_Ok_fields _ _ H) as [G [_ [_ [_ [_ [_ [Hmp _]]]]]]].
  rewrite (normalize_ports _ _ _ H HF). rewrite Hmp in Hb |- *.
  split; [reflexivity |].
  apply assignedPorts_contiguous; [exact Hz | | exact Hb].
  unfold is_uint16 in Hu. simpl.
  destruct (MultiPortConfig.BasePort (Config.MultiPort c) =? 0); lia.
Qed.

(** ** The resolved configuration *)

Lemma Forall_with_map {A B : Type} (P : A -> Prop) (Q : B -> Prop) (f : A -> B)
    (l : list A) :
  Forall P l -> Forall Q (map f l) -> Forall (fun x => P x /\ Q (f x)) l.
Proof.
  induction l as [| a l IH]; intros HP HQ; [constructor |].
  inversion HP; subst. simpl in HQ. inversion HQ; subst.
  constructor; [now split | now apply IH].
Qed.

(** Every part of the invariant that does not speak of ports holds of
    whatever [normalize] returns. *)
Lemma normalize_resolved_fields (c c' : Config.t) :
  normalize c = Ok c' ->
  (Config.Mode c' = "pool" \/ Config.Mode c' = "multi-port") /\
  Config.Nodes c' <> [] /\
  Forall (fun n => NodeConfig.Name n <> "" /\ NodeConfig.URI n <> "") (Config.Nodes c') /\
  ListenerConfig.Address (Config.Listener c') <> "" /\
  ListenerConfig.Port (Config.Listener c') <> 0 /\
  PoolConfig.Mode (Config.Pool c') <> "" /\
  0 < PoolConfig.FailureThreshold (Config.Pool c') /\
  0 < PoolConfig.BlacklistDuration (Config.Pool c') /\
  MultiPortConfig.Address (Config.MultiPort c') <> "" /\
  MultiPortConfig.BasePort (Config.MultiPort c') <> 0 /\
  ManagementConfig.Listen (Config.Management c') <> "" /\
  ManagementConfig.ProbeTarget (Config.Management c') <> "" /\
  ManagementConfig.Enabled (Config.Management c') <> None /\
  Config.LogLevel c' <> "".
Proof.
  intros H.
  destruct (normalize_Ok_fields _ _ H)
    as [F [HF [Hne [Hmode [HL [HP [HM [HG [Hll Hloop]]]]]]]]].
  destruct (normalizeNodes_Ok_nth _ _ _ _ _ _ Hloop) as [Hlen _].
  split; [exact Hmode |].
  split.
  { intros E. rewrite E in Hlen. simpl in Hlen.
    destruct (Config.Nodes c ++ F)%list; [now apply Hne | discriminate Hlen]. }
  split; [exact (normalizeNodes_names_uris _ _ _ _ _ _ Hloop) |].
  rewrite HL, HP, HM, HG, Hll.
  unfold defaultListener, defaultPool, defaultMultiPort, defaultManagement; simpl.
  repeat match goal with |- _ /\ _ => split end;
    match goal with
    | |- context [if ?b then _ else _] => destruct b eqn:E
    | |- context [match ?o with Some _ => _ | None => _ end] => destruct o
    end;
    string_tests; try discriminate; try assumption; try lia.
Qed.

(** X19: while the port cursor stays below 65536 (the base port plus
    the number of port-less nodes is at most 65536), what [normalize]
    returns satisfies the whole invariant of a resolved configuration,
    nonzero ports included. *)
Lemma normalize_resolved_no_wrap (c c' : Config.t) (F : list NodeConfig.t) :
  normalize c = Ok c' ->
  fileNodes c F ->
  0 <= MultiPortConfig.BasePort (Config.MultiPort c) ->
  MultiPortConfig.BasePort (Config.MultiPort c') +
    Z.of_nat (zeroPorts (Config.Nodes c ++ F)%list) <= uint16_modulus ->
  resolvedConfig c'.
Proof.
  intros H HF H0 Hb.
  destruct (normalize_resolved_fields _ _ H)
    as [Hmode [Hne [Hnu [H1 [H2 [H3 [H4 [H5 [H6 [H7 [H8 [H9 [H10 H11]]]]]]]]]]]]].
  unfold resolvedConfig.
  repeat match goal with |- _ /\ _ => split end; try assumption; try lia.
  assert (Hports : Forall (fun q => q <> 0) (map NodeConfig.Port (Config.Nodes c'))).
  { rewrite (normalize_ports _ _ _ H HF).
    destruct (normalize_Ok_fields _ _ H) as [G [_ [_ [_ [_ [_ [Hmp _]]]]]]].
    rewrite Hmp in Hb, H7.
    apply assignedPorts_nonzero; [| exact Hb].
    simpl in H7 |- *.
    destruct (MultiPortConfig.BasePort (Config.MultiPort c) =? 0); lia. }
  generalize (Forall_with_map _ _ _ _ Hnu Hports).
  apply Forall_impl. intros n [[Hn Hu] Hp]. unfold resolvedNode. now repeat split.
Qed.

(** ** The port cursor at 65535 *)

Lemma normalize_ports_at_65535 (c c' : Config.t) (n1 n2 : NodeConfig.t) :
  normalize c = Ok c' ->
  MultiPortConfig.BasePort (Config.MultiPort c) = 65535 ->
  Config.NodesFile c = "" ->
  Config.Nodes c = [n1; n2] ->
  NodeConfig.Port n1 = 0 ->
  NodeConfig.Port n2 = 0 ->
  map NodeConfig.Port (Config.Nodes c') = [65535; 0].
Proof.
  intros H Hbase Hfile Hnodes Hp1 Hp2.
  rewrite (normalize_ports c c' []) by (exact H || (left; now split)).
  rewrite app_nil_r, Hnodes. simpl. rewrite Hbase, Hp1, Hp2. reflexivity.
Qed.

(** C1, where the code departs from it: with base port 65535 and two
    nodes, neither with an explicit port, [normalize] succeeds with the
    ports 65535 and 0, the cursor having wrapped around; the resolved ports
    are not 65535, 65536 and they do not increase. *)
Theorem normalize_ports_wrap_around (c c' : Config.t) (n1 n2 : NodeConfig.t) :
  normalize c = Ok c' ->
  MultiPortConfig.BasePort (Config.MultiPort c) = 65535 ->
  Config.NodesFile c = "" ->
  Config.Nodes c = [n1; n2] ->
  NodeConfig.Port n1 = 0 ->
  NodeConfig.Port n2 = 0 ->
  MultiPortConfig.BasePort (Config.MultiPort c') = 65535 /\
  map NodeConfig.Port (Config.Nodes c') = [65535; 0] /\
  map NodeConfig.Port (Config.Nodes c') <>
    contiguousPorts (MultiPortConfig.BasePort (Config.MultiPort c')) 2.
Proof.
  intros H Hbase Hfile Hnodes Hp1 Hp2.
  rewrite (normalize_ports_at_65535 _ _ _ _ H Hbase Hfile Hnodes Hp1 Hp2).
  destruct (normalize_Ok_fields _ _ H) as [G [_ [_ [_ [_ [_ [Hmp _]]]]]]].
  rewrite Hmp. simpl. rewrite Hbase. simpl.
  split; [reflexivity |]. split; [reflexivity |]. discriminate.
Qed.

(** C2, where the code departs from it: with base port 65535 and two
    nodes, neither with an explicit port, [normalize] succeeds and the
    second node of the configuration it returns has port zero, so the
    configuration does not satisfy the invariant. *)
Theorem normalize_port_zero_after_wrap (c c' : Config.t) (n1 n2 : NodeConfig.t) :
  normalize c = Ok c' ->
  MultiPortConfig.BasePort (Config.MultiPort c) = 65535 ->
  Config.NodesFile c = "" ->
  Config.Nodes c = [n1; n2] ->
  NodeConfig.Port n1 = 0 ->
  NodeConfig.Port n2 = 0 ->
  (exists m1 m2, Config.Nodes c' = [m1; m2] /\ NodeConfig.Port m2 = 0) /\
  ~ resolvedConfig c'.
Proof.
  intros H Hbase Hfile Hnodes Hp1 Hp2.
  pose proof (normalize_ports_at_65535 _ _ _ _ H Hbase Hfile Hnodes Hp1 Hp2) as Hports.
  destruct (Config.Nodes c') as [| m1 [| m2 [| m3 l]]] eqn:En; try discriminate Hports.
  inversion Hports as [[Hm1 Hm2]].
  split; [exists m1, m2; now split |].
  unfold resolvedConfig. rewrite En. intros [_ [_ [Hall _]]].
  inversion Hall as [| x l Hx Hl]; subst.
  inversion Hl as [| y l' Hy _]; subst.
  destruct Hy as [_ [_ Hy]]. now apply Hy.
Qed.

(** An explicit port equal to the cursor is handed out a second time. *)
Lemma normalize_duplicate_ports (c c' : Config.t) (n1 n2 : NodeConfig.t) :
  normalize c = Ok c' ->
  Config.NodesFile c = "" ->
  Config.Nodes c = [n1; n2] ->
  NodeConfig.Port n1 = MultiPortConfig.BasePort (defaultMultiPort (Config.MultiPort c)) ->
  NodeConfig.Port n2 = 0 ->
  map NodeConfig.Port (Config.Nodes c') = [NodeConfig.Port n1; NodeConfig.Port n1].
Proof.
  intros H Hfile Hnodes Hp1 Hp2.
  assert (Hnz : (NodeConfig.Port n1 =? 0) = false).
  { apply Z.eqb_neq. rewrite Hp1. simpl.
    destruct (MultiPortConfig.BasePort (Config.MultiPort c) =? 0) eqn:Eb;
      [discriminate | now apply Z.eqb_neq in Eb]. }
  rewrite (normalize_ports c c' []) by (exact H || (left; now split)).
  rewrite app_nil_r, Hnodes, <- Hp1. cbn [assignedPorts].
  rewrite Hnz, Hp2. reflexivity.
Qed.

(** ** The outcome of [normalize] *)

Lemma normalizeNode_fails (mode : string) (mp : MultiPortConfig.t) (idx : nat) (p : Z)
    (n : NodeConfig.t) :
  strings_TrimSpace (NodeConfig.URI n) = "" ->
  normalizeNode mode mp idx p n = Err (ErrMissingURI idx).
Proof.
  intros H. unfold normalizeNode.
  replace (NodeConfig.URI (trimmedNode n)) with (strings_TrimSpace (NodeConfig.URI n))
    by reflexivity.
  rewrite H. reflexivity.
Qed.

Lemma normalizeNode_succeeds (mode : string) (mp : MultiPortConfig.t) (idx : nat) (p : Z)
    (n : NodeConfig.t) :
  strings_TrimSpace (NodeConfig.URI n) <> "" ->
  exists r, normalizeNode mode mp idx p n = Ok r.
Proof.
  intros H. unfold normalizeNode.
  replace (NodeConfig.URI (trimmedNode n)) with (strings_TrimSpace (NodeConfig.URI n))
    by reflexivity.
  rewrite (eqb_false_of_neq _ _ H).
  match goal with
  | |- context [if ?b then (_, _) else (_, _)] => destruct b
  end; eexists; reflexivity.
Qed.

Lemma normalizeNodes_outcome (mode : string) (mp : MultiPortConfig.t)
    (nodes : list NodeConfig.t) :
  forall (idx : nat) (p : Z),
    match firstMissingURI nodes with
    | Some k => normalizeNodes mode mp idx p nodes = Err (ErrMissingURI (idx + k))
    | None => exists nodes', normalizeNodes mode mp idx p nodes = Ok nodes'
    end.
Proof.
  induction nodes as [| n0 rest IH]; intros idx p; simpl.
  - now eexists.
  - destruct (String.eqb (strings_TrimSpace (NodeConfig.URI n0)) "") eqn:E.
    + apply String.eqb_eq in E. rewrite (normalizeNode_fails _ _ _ _ _ E).
      simpl. now rewrite Nat.add_0_r.
    + apply String.eqb_neq in E.
      destruct (normalizeNode_succeeds mode mp idx p n0 E) as [r Hr]. rewrite Hr. simpl bind.
      specialize (IH (S idx) (snd r)).
      destruct (firstMissingURI rest) as [k |]; simpl.
      * rewrite IH. simpl. now rewrite Nat.add_succ_r.
      * destruct IH as [rest' Hrest]. rewrite Hrest. simpl. now eexists.
Qed.

Lemma firstMissingURI_None (nodes : list NodeConfig.t) :
  firstMissingURI nodes = None <->
  Forall (fun n => strings_TrimSpace (NodeConfig.URI n) <> "") nodes.
Proof.
  induction nodes as [| n0 rest IH]; simpl.
  - split; [constructor | reflexivity].
  - destruct (String.eqb (strings_TrimSpace (NodeConfig.URI n0)) "") eqn:E.
    + apply String.eqb_eq in E. split; [discriminate |].
      intros H. inversion H; subst. contradiction.
    + apply String.eqb_neq in E. split.
      * intros H. constructor; [exact E |]. apply IH.
        destruct (firstMissingURI rest); [discriminate H | reflexivity].
      * intros H. inversion H; subst.
        replace (firstMissingURI rest) with (@None nat); [reflexivity |].
        symmetry. now apply IH.
Qed.

Lemma firstMissingURI_Some (nodes : list NodeConfig.t) :
  forall i : nat,
    firstMissingURI nodes = Some i <->
    exists n,
      nth_error nodes i = Some n /\
      strings_TrimSpace (NodeConfig.URI n) = "" /\
      Forall (fun m => strings_TrimSpace (NodeConfig.URI m) <> "") (firstn i nodes).
Proof.
  induction nodes as [| n0 rest IH]; intros i; simpl.
  - split; [discriminate |]. intros [n [H _]]. destruct i; discriminate H.
  - destruct (String.eqb (strings_TrimSpace (NodeConfig.URI n0)) "") eqn:E.
    + apply String.eqb_eq in E. split.
      * intros H. inversion H; subst. exists n0. repeat split; [exact E | constructor].
      * intros [n [Hn [Hblank Hbefore]]]. destruct i as [| i]; [reflexivity |].
        simpl in Hbefore. inversion Hbefore; subst. contradiction.
    + apply String.eqb_neq in E. split.
      * intros H. destruct (firstMissingURI rest) as [k |] eqn:Ek; [| discriminate H].
        inversion H; subst. destruct (proj1 (IH k) eq_refl) as [n [Hn [Hblank Hbefore]]].
        exists n. repeat split; [exact Hn | exact Hblank |].
        simpl. now constructor.
      * intros [n [Hn [Hblank Hbefore]]]. destruct i as [| i].
        -- simpl in Hn. inversion Hn; subst. contradiction.
        -- simpl in Hn, Hbefore. inversion Hbefore; subst.
           replace (firstMissingURI rest) with (Some i); [reflexivity |].
           symmetry. apply IH. exists n. now repeat split.
Qed.

Lemma fileNodes_cases (c : Config.t) :
  (exists F, fileNodes c F) \/
  (Config.NodesFile c <> "" /\
   exists err, loadNodesFromFile (Config.NodesFile c) = Err err).
Proof.
  destruct (String.string_dec (Config.NodesFile c) "") as [E | N].
  - left. exists []. left. now split.
  - destruct (loadNodesFromFile (Config.NodesFile c)) as [F | err] eqn:EF.
    + left. exists F. right. now split.
    + right. split; [exact N |]. now exists err.
Qed.

(** Every run of [normalize] is one of five: the mode is refused; the
    node file cannot be read; the merged list is empty; the first node
    with an empty URI stops the loop; or the configuration is returned. *)
Lemma normalize_cases (c : Config.t) :
  (~ supportedMode (Config.Mode c) /\
   normalize c = Err (ErrUnsupportedMode (Config.Mode c))) \/
  (supportedMode (Config.Mode c) /\ Config.NodesFile c <> "" /\
   exists err, loadNodesFromFile (Config.NodesFile c) = Err err /\
               normalize c = Err (ErrLoadNodesFile (Config.NodesFile c) err)) \/
  (supportedMode (Config.Mode c) /\
   exists F, fileNodes c F /\ (Config.Nodes c ++ F)%list = [] /\
             normalize c = Err ErrNodesEmpty) \/
  (supportedMode (Config.Mode c) /\
   exists F i, fileNodes c F /\ (Config.Nodes c ++ F)%list <> [] /\
               firstMissingURI (Config.Nodes c ++ F)%list = Some i /\
               normalize c = Err (ErrMissingURI i)) \/
  (supportedMode (Config.Mode c) /\
   exists F c', fileNodes c F /\ (Config.Nodes c ++ F)%list <> [] /\
                firstMissingURI (Config.Nodes c ++ F)%list = None /\
                normalize c = Ok c').
Proof.
  destruct (supportedMode_dec (Config.Mode c)) as [Hs | Hs].
  - right. destruct (normalizeMode_supported _ Hs) as [c1 H1].
    destruct (fileNodes_cases c) as [[F HF] | [N [err Herr]]].
    + right. rewrite (normalize_unfold _ _ _ H1 HF).
      destruct (Config.Nodes c ++ F)%list as [| n0 rest] eqn:EL.
      * left. split; [exact Hs |]. exists F. rewrite EL. now repeat split.
      * right.
        pose proof (normalizeNodes_outcome (Config.Mode c1)
                      (defaultMultiPort (Config.MultiPort c)) (n0 :: rest) 0
                      (MultiPortConfig.BasePort (defaultMultiPort (Config.MultiPort c))))
          as Hloop.
        destruct (firstMissingURI (n0 :: rest)) as [k |] eqn:Ek.
        -- left. split; [exact Hs |]. exists F, k. rewrite EL, Hloop.
           repeat split; try assumption. discriminate.
        -- right. split; [exact Hs |]. destruct Hloop as [nodes Hnodes].
           exists F. eexists. rewrite EL, Hnodes.
           repeat split; try assumption. discriminate.
    + left. split; [exact Hs |]. split; [exact N |]. exists err. split; [exact Herr |].
      exact (normalize_load_error _ _ _ H1 N Herr).
  - left. split; [exact Hs |]. unfold normalize.
    now rewrite (normalizeMode_unsupported _ Hs).
Qed.

Lemma loadNodesFromFile_Err_iff (path : string) (err : lib_error) :
  loadNodesFromFile path = Err err <-> os_ReadFile path = Err err.
Proof.
  unfold loadNodesFromFile.
  destruct (os_ReadFile path) as [data | e]; split; intros H;
    try discriminate H; now inversion H.
Qed.

Lemma fileNodes_not_load_error (c : Config.t) (F : list NodeConfig.t) (err : lib_error) :
  fileNodes c F ->
  Config.NodesFile c <> "" ->
  loadNodesFromFile (Config.NodesFile c) = Err err ->
  False.
Proof.
  intros [[E _] | [_ HF]] N Herr; [contradiction |].
  rewrite HF in Herr. discriminate Herr.
Qed.

(** X1: [normalize] returns a configuration exactly when the mode is one
    of the four accepted spellings, the node file (if one is configured)
    can be read, the merged list is not empty and every merged node has a
    URI that is not empty once trimmed. *)
Theorem normalize_succeeds_iff (c : Config.t) :
  (exists c', normalize c = Ok c') <->
  supportedMode (Config.Mode c) /\
  exists F,
    (Config.NodesFile c = "" /\ F = [] \/
     Config.NodesFile c <> "" /\ loadNodesFromFile (Config.NodesFile c) = Ok F) /\
    (Config.Nodes c ++ F)%list <> [] /\
    Forall (fun n => strings_TrimSpace (NodeConfig.URI n) <> "") (Config.Nodes c ++ F)%list.
Proof.
  split.
  - intros [c' H].
    destruct (normalize_cases c)
      as [[_ E] | [[_ [_ [err [_ E]]]] | [[_ [F [_ [_ E]]]] | [[_ [F [i [_ [_ [_ E]]]]]]
          | [Hs [F [c'' [HF [Hne [Hnone _]]]]]]]]]];
      try (rewrite E in H; discriminate H).
    split; [exact Hs |]. exists F. split; [exact HF |]. split; [exact Hne |].
    now apply firstMissingURI_None.
  - intros [Hs [F [HF [Hne Hall]]]].
    destruct (normalize_cases c)
      as [[Hn _] | [[_ [N [err [Herr _]]]] | [[_ [G [HG [Hnil _]]]]
          | [[_ [G [i [HG [_ [Hsome _]]]]]] | [_ [G [c' [_ [_ [_ E]]]]]]]]]].
    + contradiction.
    + exfalso. exact (fileNodes_not_load_error _ _ _ HF N Herr).
    + rewrite (fileNodes_functional _ _ _ HF HG) in Hne. contradiction.
    + apply firstMissingURI_None in Hall.
      rewrite (fileNodes_functional _ _ _ HF HG) in Hall. rewrite Hall in Hsome.
      discriminate Hsome.
    + now exists c'.
Qed.

(** X2: [normalize] fails with the missing-URI error for index [i]
    exactly when the mode is accepted, the node file (if any) is read, the
    node at index [i] of the merged list has an empty URI once trimmed and
    no node before it has: the error names the first such node. *)
Theorem normalize_missing_uri_iff (c : Config.t) (i : nat) :
  normalize c = Err (ErrMissingURI i) <->
  supportedMode (Config.Mode c) /\
  exists F n,
    (Config.NodesFile c = "" /\ F = [] \/
     Config.NodesFile c <> "" /\ loadNodesFromFile (Config.NodesFile c) = Ok F) /\
    nth_error (Config.Nodes c ++ F)%list i = Some n /\
    strings_TrimSpace (NodeConfig.URI n) = "" /\
    Forall (fun m => strings_TrimSpace (NodeConfig.URI m) <> "")
      (firstn i (Config.Nodes c ++ F)%list).
Proof.
  split.
  - intros H.
    destruct (normalize_cases c)
      as [[_ E] | [[_ [_ [err [_ E]]]] | [[_ [F [_ [_ E]]]]
          | [[Hs [F [k [HF [_ [Hsome E]]]]]] | [_ [F [c' [_ [_ [_ E]]]]]]]]]];
      try (rewrite E in H; discriminate H).
    rewrite E in H. inversion H; subst k.
    split; [exact Hs |]. apply firstMissingURI_Some in Hsome.
    destruct Hsome as [n Hn]. exists F, n. split; [exact HF | exact Hn].
  - intros [Hs [F [n [HF [Hn [Hblank Hbefore]]]]]].
    assert (Hsome : firstMissingURI (Config.Nodes c ++ F)%list = Some i).
    { apply firstMissingURI_Some. exists n. now repeat split. }
    destruct (normalize_cases c)
      as [[Hno _] | [[_ [N [err [Herr _]]]] | [[_ [G [HG [Hnil _]]]]
          | [[_ [G [k [HG [_ [Hk E]]]]]] | [_ [G [c' [HG [_ [Hnone _]]]]]]]]]].
    + contradiction.
    + exfalso. exact (fileNodes_not_load_error _ _ _ HF N Herr).
    + rewrite <- (fileNodes_functional _ _ _ HF HG) in Hnil. rewrite Hnil in Hn.
      destruct i; discriminate Hn.
    + rewrite <- (fileNodes_functional _ _ _ HF HG) in Hk. rewrite Hk in Hsome.
      inversion Hsome; subst k. exact E.
    + rewrite <- (fileNodes_functional _ _ _ HF HG) in Hnone. rewrite Hnone in Hsome.
      discriminate Hsome.
Qed.

(** X3: [normalize] fails with the node-file error exactly when the mode
    is accepted, a node file is configured and reading it fails; the error
    carries the configured path and the error of the read.  The inline
    nodes play no part: the file is read before any node is looked at. *)
Theorem normalize_load_error_iff (c : Config.t) (path : string) (cause : lib_error) :
  normalize c = Err (ErrLoadNodesFile path cause) <->
  supportedMode (Config.Mode c) /\
  Config.NodesFile c <> "" /\
  path = Config.NodesFile c /\
  os_ReadFile (Config.NodesFile c) = Err cause.
Proof.
  split.
  - intros H.
    destruct (normalize_cases c)
      as [[_ E] | [[Hs [N [err [Herr E]]]] | [[_ [F [_ [_ E]]]]
          | [[_ [F [k [_ [_ [_ E]]]]]] | [_ [F [c' [_ [_ [_ E]]]]]]]]]];
      try (rewrite E in H; discriminate H).
    rewrite E in H. inversion H; subst.
    repeat split; try assumption. now apply loadNodesFromFile_Err_iff.
  - intros [Hs [N [Hpath Hread]]]. subst path.
    destruct (normalizeMode_supported _ Hs) as [c1 H1].
    apply (normalize_load_error _ _ _ H1 N). now apply loadNodesFromFile_Err_iff.
Qed.

(** The four errors [normalize] can return. *)
Lemma normalize_error_kinds (c : Config.t) (e : config_error) :
  normalize c = Err e ->
  e = ErrUnsupportedMode (Config.Mode c) \/
  (exists cause, e = ErrLoadNodesFile (Config.NodesFile c) cause) \/
  e = ErrNodesEmpty \/
  (exists i, e = ErrMissingURI i).
Proof.
  intros H.
  destruct (normalize_cases c)
    as [[_ E] | [[_ [_ [err [_ E]]]] | [[_ [F [_ [_ E]]]]
        | [[_ [F [k [_ [_ [_ E]]]]]] | [_ [F [c' [_ [_ [_ E]]]]]]]]]];
    rewrite E in H; inversion H; subst.
  - now left.
  - right. left. now exists err.
  - right. right. now left.
  - right. right. right. now exists k.
Qed.

(** ** [Load] *)

(** X4: [Load] returns the read error exactly when the configuration
    file cannot be read, and the decode error exactly when it is read and
    [yaml.Unmarshal] refuses it; each carries the error of the call that
    failed, and no failure of [normalize] is reported as either. *)
Theorem Load_read_decode_errors (path : string) (cause : lib_error) :
  (Load path = Err (ErrReadConfig cause) <-> os_ReadFile path = Err cause) /\
  (Load path = Err (ErrDecodeConfig cause) <->
   exists data, os_ReadFile path = Ok data /\ yaml_Unmarshal data = Err cause).
Proof.
  unfold Load. split; split.
  - destruct (os_ReadFile path) as [data | e]; intros H; [| now inversion H].
    destruct (yaml_Unmarshal data) as [cfg | e]; [| discriminate H].
    destruct (normalize_error_kinds _ _ H) as [E | [[k E] | [E | [k E]]]]; discriminate E.
  - intros H. rewrite H. reflexivity.
  - destruct (os_ReadFile path) as [data | e]; intros H; [| discriminate H].
    destruct (yaml_Unmarshal data) as [cfg | e] eqn:Ed.
    + destruct (normalize_error_kinds _ _ H) as [E | [[k E] | [E | [k E]]]]; discriminate E.
    + inversion H; subst. exists data. now split.
  - intros [data [Hr Hd]]. rewrite Hr, Hd. reflexivity.
Qed.

(** X5: a configuration [Load] returns was decoded from the file and
    passed [normalize]; its mode is canonical, it has at least one node,
    every node has a name and a URI, every field with a default is set,
    and [ManagementEnabled] on it returns the stored flag. *)
Theorem Load_Ok_resolved (path : string) (c' : Config.t) :
  Load path = Ok c' ->
  (exists data cfg,
     os_ReadFile path = Ok data /\ yaml_Unmarshal data = Ok cfg /\ normalize cfg = Ok c') /\
  (Config.Mode c' = "pool" \/ Config.Mode c' = "multi-port") /\
  Config.Nodes c' <> [] /\
  Forall (fun n => NodeConfig.Name n <> "" /\ NodeConfig.URI n <> "") (Config.Nodes c') /\
  ListenerConfig.Address (Config.Listener c') <> "" /\
  ListenerConfig.Port (Config.Listener c') <> 0 /\
  PoolConfig.Mode (Config.Pool c') <> "" /\
  0 < PoolConfig.FailureThreshold (Config.Pool c') /\
  0 < PoolConfig.BlacklistDuration (Config.Pool c') /\
  MultiPortConfig.Address (Config.MultiPort c') <> "" /\
  MultiPortConfig.BasePort (Config.MultiPort c') <> 0 /\
  ManagementConfig.Listen (Config.Management c') <> "" /\
  ManagementConfig.ProbeTarget (Config.Management c') <> "" /\
  Config.LogLevel c' <> "" /\
  exists b, ManagementConfig.Enabled (Config.Management c') = Some b /\
            ManagementEnabled c' = (Returns b, c').
Proof.
  unfold Load. intros H.
  destruct (os_ReadFile path) as [data | e]; [| discriminate H].
  destruct (yaml_Unmarshal data) as [cfg | e] eqn:Ed; [| discriminate H].
  split; [exists data, cfg; now repeat split |].
  destruct (normalize_resolved_fields _ _ H)
    as [Hmode [Hne [Hnu [H1 [H2 [H3 [H4 [H5 [H6 [H7 [H8 [H9 [H10 H11]]]]]]]]]]]]].
  repeat match goal with |- _ /\ _ => split end; try assumption.
  unfold ManagementEnabled.
  destruct (ManagementConfig.Enabled (Config.Management c')) as [b |]; [| contradiction].
  exists b. now split.
Qed.

(** ** Defaults *)

Lemma normalize_Ok_NodesFile (c c' : Config.t) :
  normalize c = Ok c' -> Config.NodesFile c' = Config.NodesFile c.
Proof.
  intros H. destruct (normalize_Ok_inv _ _ H) as [c1 [F [nodes [H1 [_ [_ [_ Ec']]]]]]].
  destruct (normalizeMode_Ok _ _ H1) as [Ec1 _].
  rewrite Ec', Ec1. unfold defaultLogLevel.
  match goal with |- context [if ?b then _ else _] => destruct b end; reflexivity.
Qed.

(** X6: in a configuration [normalize] returns, each field with a
    default has the configured value when one was given and the default
    otherwise (0.0.0.0 and 2323 for the listener; sequential, 3 and 24
    hours for the pool, a threshold or duration below zero counting as not
    given; 0.0.0.0 and 28000 for multi-port; 127.0.0.1:9090,
    www.apple.com:80 and enabled for management; info for the log level);
    the credentials of the listener and of multi-port and the node-file
    path are as configured. *)
Theorem normalize_defaults (c c' : Config.t) :
  normalize c = Ok c' ->
  ListenerConfig.Address (Config.Listener c') =
    (if String.eqb (ListenerConfig.Address (Config.Listener c)) "" then "0.0.0.0"
     else ListenerConfig.Address (Config.Listener c)) /\
  ListenerConfig.Port (Config.Listener c') =
    (if ListenerConfig.Port (Config.Listener c) =? 0 then 2323
     else ListenerConfig.Port (Config.Listener c)) /\
  ListenerConfig.Username (Config.Listener c') = ListenerConfig.Username (Config.Listener c) /\
  ListenerConfig.Password (Config.Listener c') = ListenerConfig.Password (Config.Listener c) /\
  PoolConfig.Mode (Config.Pool c') =
    (if String.eqb (PoolConfig.Mode (Config.Pool c)) "" then "sequential"
     else PoolConfig.Mode (Config.Pool c)) /\
  PoolConfig.FailureThreshold (Config.Pool c') =
    (if PoolConfig.FailureThreshold (Config.Pool c) <=? 0 then 3
     else PoolConfig.FailureThreshold (Config.Pool c)) /\
  PoolConfig.BlacklistDuration (Config.Pool c') =
    (if PoolConfig.BlacklistDuration (Config.Pool c) <=? 0 then 86400000000000
     else PoolConfig.BlacklistDuration (Config.Pool c)) /\
  MultiPortConfig.Address (Config.MultiPort c') =
    (if String.eqb (MultiPortConfig.Address (Config.MultiPort c)) "" then "0.0.0.0"
     else MultiPortConfig.Address (Config.MultiPort c)) /\
  MultiPortConfig.BasePort (Config.MultiPort c') =
    (if MultiPortConfig.BasePort (Config.MultiPort c) =? 0 then 28000
     else MultiPortConfig.BasePort (Config.MultiPort c)) /\
  MultiPortConfig.Username (Config.MultiPort c') =
    MultiPortConfig.Username (Config.MultiPort c) /\
  MultiPortConfig.Password (Config.MultiPort c') =
    MultiPortConfig.Password (Config.MultiPort c) /\
  ManagementConfig.Enabled (Config.Management c') =
    Some match ManagementConfig.Enabled (Config.Management c) with
         | None => true
         | Some b => b
         end /\
  ManagementConfig.Listen (Config.Management c') =
    (if String.eqb (ManagementConfig.Listen (Config.Management c)) "" then "127.0.0.1:9090"
     else ManagementConfig.Listen (Config.Management c)) /\
  ManagementConfig.ProbeTarget (Config.Management c') =
    (if String.eqb (ManagementConfig.ProbeTarget (Config.Management c)) ""
     then "www.apple.com:80"
     else ManagementConfig.ProbeTarget (Config.Management c)) /\
  Config.LogLevel c' =
    (if String.eqb (Config.LogLevel c) "" then "info" else Config.LogLevel c) /\
  Config.NodesFile c' = Config.NodesFile c.
Proof.
  intros H.
  destruct (normalize_Ok_fields _ _ H) as [F [_ [_ [_ [HL [HP [HM [HG [Hll _]]]]]]]]].
  rewrite HL, HP, HM, HG, Hll, (normalize_Ok_NodesFile _ _ H).
  unfold defaultListener, defaultPool, defaultMultiPort, defaultManagement. simpl.
  repeat match goal with |- _ /\ _ => split end; try reflexivity.
  destruct (ManagementConfig.Enabled (Config.Management c)); reflexivity.
Qed.

(** X7: normalization does not change what [ManagementEnabled] reports:
    on the configuration [normalize] returns it gives the answer it gives
    on the configuration as decoded. *)
Theorem normalize_keeps_ManagementEnabled (c c' : Config.t) :
  normalize c = Ok c' ->
  fst (ManagementEnabled c') = fst (ManagementEnabled c).
Proof.
  intros H.
  destruct (normalize_Ok_fields _ _ H) as [F [_ [_ [_ [_ [_ [_ [HG _]]]]]]]].
  unfold ManagementEnabled. rewrite HG. unfold defaultManagement. simpl.
  destruct (ManagementConfig.Enabled (Config.Management c)); reflexivity.
Qed.

Lemma defaultListener_stable (l : ListenerConfig.t) :
  defaultListener (defaultListener l) = defaultListener l.
Proof.
  unfold defaultListener. simpl.
  destruct (String.eqb (ListenerConfig.Address l) "") eqn:Ea;
    destruct (ListenerConfig.Port l =? 0) eqn:Ep; simpl; rewrite ?Ea, ?Ep; reflexivity.
Qed.

Lemma defaultPool_stable (q : PoolConfig.t) :
  defaultPool (defaultPool q) = defaultPool q.
Proof.
  unfold defaultPool. simpl.
  destruct (String.eqb (PoolConfig.Mode q) "") eqn:Em;
    destruct (PoolConfig.FailureThreshold q <=? 0) eqn:Et;
    destruct (PoolConfig.BlacklistDuration q <=? 0) eqn:Ed;
    simpl; rewrite ?Em, ?Et, ?Ed; reflexivity.
Qed.

Lemma defaultMultiPort_stable (m : MultiPortConfig.t) :
  defaultMultiPort (defaultMultiPort m) = defaultMultiPort m.
Proof.
  unfold defaultMultiPort. simpl.
  destruct (String.eqb (MultiPortConfig.Address m) "") eqn:Ea;
    destruct (MultiPortConfig.BasePort m =? 0) eqn:Ep; simpl; rewrite ?Ea, ?Ep; reflexivity.
Qed.

Lemma defaultManagement_stable (m : ManagementConfig.t) :
  defaultManagement (defaultManagement m) = defaultManagement m.
Proof.
  unfold defaultManagement. simpl.
  destruct (String.eqb (ManagementConfig.Listen m) "") eqn:El;
    destruct (String.eqb (ManagementConfig.ProbeTarget m) "") eqn:Ep;
    destruct (ManagementConfig.Enabled m); simpl; rewrite ?El, ?Ep; reflexivity.
Qed.

(** X8: the mode stage, the default stage and the log-level default
    leave a configuration [normalize] returned as it is: a resolved
    configuration is a fixed point of every stage that does not touch the
    nodes. *)
Theorem normalize_result_stable (c c' : Config.t) :
  normalize c = Ok c' ->
  normalizeMode c' = Ok c' /\ applyDefaults c' = c' /\ defaultLogLevel c' = c'.
Proof.
  intros H.
  destruct (normalize_Ok_fields _ _ H) as [F [_ [_ [Hmode [HL [HP [HM [HG [Hll _]]]]]]]]].
  split; [now apply normalizeMode_canonical |].
  split.
  - unfold applyDefaults. destruct c' as [mode l mp q mg nodes file level].
    simpl in *. subst l q mp mg. unfold Config.set_Management, Config.set_MultiPort,
      Config.set_Pool, Config.set_Listener. simpl.
    now rewrite defaultListener_stable, defaultPool_stable, defaultMultiPort_stable,
      defaultManagement_stable.
  - unfold defaultLogLevel. rewrite Hll.
    destruct (String.eqb (Config.LogLevel c) "") eqn:E; [reflexivity |].
    now rewrite E.
Qed.

(** ** More on ports *)

Lemma uint16_incr_range (p : Z) : is_uint16 (uint16_incr p).
Proof. unfold is_uint16, uint16_incr, uint16_modulus. apply Z.mod_pos_bound. lia. Qed.

Lemma zeroPorts_cons (n : NodeConfig.t) (rest : list NodeConfig.t) :
  zeroPorts (n :: rest) =
  (if NodeConfig.Port n =? 0 then S (zeroPorts rest) else zeroPorts rest).
Proof. unfold zeroPorts. simpl. destruct (NodeConfig.Port n =? 0); reflexivity. Qed.

Lemma cursorAfter_mod (nodes : list NodeConfig.t) :
  forall p : Z,
    is_uint16 p ->
    cursorAfter p nodes = (p + Z.of_nat (zeroPorts nodes)) mod uint16_modulus.
Proof.
  induction nodes as [| n0 rest IH]; intros p Hp.
  - simpl. unfold is_uint16 in Hp. rewrite Z.add_0_r. symmetry. now apply Z.mod_small.
  - cbn [cursorAfter]. rewrite zeroPorts_cons.
    destruct (NodeConfig.Port n0 =? 0).
    + rewrite (IH _ (uint16_incr_range p)). unfold uint16_incr.
      rewrite Zplus_mod_idemp_l. f_equal. lia.
    + now apply IH.
Qed.

Lemma defaultMultiPort_base_range (m : MultiPortConfig.t) :
  is_uint16 (MultiPortConfig.BasePort m) ->
  is_uint16 (MultiPortConfig.BasePort (defaultMultiPort m)).
Proof.
  unfold is_uint16, uint16_modulus. intros H. simpl.
  destruct (MultiPortConfig.BasePort m =? 0); lia.
Qed.

(** X9: in a configuration [normalize] returns, a node that came with a
    nonzero port has that port, and a node that came without one has the
    base port plus the number of port-less nodes before it in the merged
    list, modulo 65536. *)
Theorem normalize_port_at (c c' : Config.t) (F : list NodeConfig.t) (i : nat)
    (n : NodeConfig.t) :
  normalize c = Ok c' ->
  (Config.NodesFile c = "" /\ F = [] \/
   Config.NodesFile c <> "" /\ loadNodesFromFile (Config.NodesFile c) = Ok F) ->
  is_uint16 (MultiPortConfig.BasePort (Config.MultiPort c)) ->
  nth_error (Config.Nodes c ++ F)%list i = Some n ->
  exists n',
    nth_error (Config.Nodes c') i = Some n' /\
    NodeConfig.Port n' =
      (if NodeConfig.Port n =? 0
       then (MultiPortConfig.BasePort (Config.MultiPort c') +
             Z.of_nat (zeroPorts (firstn i (Config.Nodes c ++ F)%list))) mod 65536
       else NodeConfig.Port n).
Proof.
  intros H HF Hbase Hn.
  destruct (normalize_node_at _ _ _ _ _ H HF Hn) as [n' [Hn' Hstep]].
  exists n'. split; [exact Hn' |].
  destruct (normalizeNode_Ok _ _ _ _ _ _ Hstep) as [_ [_ [_ [Hport _]]]].
  simpl in Hport. rewrite Hport.
  destruct (NodeConfig.Port n =? 0); [| reflexivity].
  apply cursorAfter_mod.
  destruct (normalize_Ok_fields _ _ H) as [G [_ [_ [_ [_ [_ [Hmp _]]]]]]].
  rewrite Hmp. now apply defaultMultiPort_base_range.
Qed.

Lemma contiguousPorts_NoDup (base : Z) (count : nat) : NoDup (contiguousPorts base count).
Proof.
  revert base. induction count as [| k IH]; intros base.
  - constructor.
  - rewrite contiguousPorts_cons. constructor; [| apply IH].
    unfold contiguousPorts. rewrite in_map_iff. intros [j [Hj _]]. lia.
Qed.

(** X10: when no merged node has an explicit port and the ports from the
    base port on fit below 65536, the resolved ports are pairwise
    distinct. *)
Theorem normalize_ports_distinct (c c' : Config.t) (F : list NodeConfig.t) :
  normalize c = Ok c' ->
  (Config.NodesFile c = "" /\ F = [] \/
   Config.NodesFile c <> "" /\ loadNodesFromFile (Config.NodesFile c) = Ok F) ->
  Forall (fun n => NodeConfig.Port n = 0) (Config.Nodes c ++ F)%list ->
  is_uint16 (MultiPortConfig.BasePort (Config.MultiPort c)) ->
  MultiPortConfig.BasePort (Config.MultiPort c') +
    Z.of_nat (List.length (Config.Nodes c ++ F)%list) <= 65536 ->
  NoDup (map NodeConfig.Port (Config.Nodes c')).
Proof.
  intros H HF Hz Hu Hb.
  destruct (normalize_Ok_fields _ _ H) as [G [_ [_ [_ [_ [_ [Hmp _]]]]]]].
  rewrite (normalize_ports _ _ _ H HF). rewrite Hmp in Hb.
  rewrite assignedPorts_contiguous; [apply contiguousPorts_NoDup | exact Hz | | exact Hb].
  now destruct (defaultMultiPort_base_range _ Hu) as [H0 _].
Qed.

Lemma assignedPorts_range (nodes : list NodeConfig.t) :
  forall p : Z,
    is_uint16 p ->
    Forall (fun n => is_uint16 (NodeConfig.Port n)) nodes ->
    Forall is_uint16 (assignedPorts p nodes).
Proof.
  induction nodes as [| n0 rest IH]; intros p Hp Hall; simpl; [constructor |].
  inversion Hall; subst.
  destruct (NodeConfig.Port n0 =? 0).
  - constructor; [exact Hp |]. apply IH; [apply uint16_incr_range | assumption].
  - constructor; [assumption |]. now apply IH.
Qed.

(** X11: [normalize] keeps ports within [uint16]: when the base port and
    the ports of the merged nodes are below 65536 and not negative, so are
    the resolved ports. *)
Theorem normalize_ports_in_range (c c' : Config.t) (F : list NodeConfig.t) :
  normalize c = Ok c' ->
  (Config.NodesFile c = "" /\ F = [] \/
   Config.NodesFile c <> "" /\ loadNodesFromFile (Config.NodesFile c) = Ok F) ->
  is_uint16 (MultiPortConfig.BasePort (Config.MultiPort c)) ->
  Forall (fun n => is_uint16 (NodeConfig.Port n)) (Config.Nodes c ++ F)%list ->
  is_uint16 (MultiPortConfig.BasePort (Config.MultiPort c')) /\
  Forall (fun n => is_uint16 (NodeConfig.Port n)) (Config.Nodes c').
Proof.
  intros H HF Hbase Hall.
  destruct (normalize_Ok_fields _ _ H) as [G [_ [_ [_ [_ [_ [Hmp _]]]]]]].
  split; [rewrite Hmp; now apply defaultMultiPort_base_range |].
  apply Forall_map. rewrite (normalize_ports _ _ _ H HF).
  apply assignedPorts_range; [now apply defaultMultiPort_base_range | exact Hall].
Qed.

(** ** More on credentials *)

Lemma normalizeNodes_usernames (mp : MultiPortConfig.t) (nodes : list NodeConfig.t) :
  MultiPortConfig.Username mp <> "" ->
  forall (idx : nat) (p : Z) (nodes' : list NodeConfig.t),
    normalizeNodes "multi-port" mp idx p nodes = Ok nodes' ->
    Forall (fun n => NodeConfig.Username n <> "") nodes'.
Proof.
  intros Hmp. induction nodes as [| n0 rest IH]; intros idx p nodes' H; simpl in H.
  - inversion H. constructor.
  - apply bind_Ok_inv in H. destruct H as [r [Hr H]].
    apply bind_Ok_inv in H. destruct H as [rest' [Hrest H]].
    inversion H; subst nodes'; clear H.
    constructor; [| exact (IH _ _ _ Hrest)].
    destruct (normalizeNode_Ok _ _ _ _ _ _ Hr) as [_ [_ [_ [_ [_ [Hu _]]]]]].
    rewrite Hu. simpl.
    destruct (String.eqb (NodeConfig.Username n0) "") eqn:E; [exact Hmp |].
    now apply String.eqb_neq in E.
Qed.

(** X12: in multi-port mode with a default username configured, no node
    of the configuration [normalize] returns is left without a username. *)
Theorem normalize_multiport_usernames (c c' : Config.t) :
  normalize c = Ok c' ->
  Config.Mode c' = "multi-port" ->
  MultiPortConfig.Username (Config.MultiPort c) <> "" ->
  Forall (fun n => NodeConfig.Username n <> "") (Config.Nodes c').
Proof.
  intros H Hmode Hu.
  destruct (normalize_Ok_fields _ _ H) as [F [_ [_ [_ [_ [_ [Hmp [_ [_ Hloop]]]]]]]]].
  rewrite Hmode, Hmp in Hloop.
  exact (normalizeNodes_usernames (defaultMultiPort (Config.MultiPort c)) _ Hu _ _ _ Hloop).
Qed.

(** ** Normalizing twice *)

(** X13: [normalize] leaves the node-file path in place, so running it
    on its own result reads the file again and appends its descriptors a
    second time: the second result has the inline nodes and twice the
    nodes of the file. *)
Theorem normalize_twice_appends_file_again (c c' c'' : Config.t) (F : list NodeConfig.t) :
  normalize c = Ok c' ->
  (Config.NodesFile c = "" /\ F = [] \/
   Config.NodesFile c <> "" /\ loadNodesFromFile (Config.NodesFile c) = Ok F) ->
  normalize c' = Ok c'' ->
  List.length (Config.Nodes c'') =
    (List.length (Config.Nodes c) + List.length F + List.length F)%nat.
Proof.
  intros H HF H'.
  assert (HF' : fileNodes c' F).
  { unfold fileNodes. rewrite (normalize_Ok_NodesFile _ _ H). exact HF. }
  destruct (normalize_Ok_fields _ _ H) as [G [HG [_ [_ [_ [_ [_ [_ [_ Hloop]]]]]]]]].
  rewrite <- (fileNodes_functional _ _ _ HF HG) in Hloop.
  destruct (normalizeNodes_Ok_nth _ _ _ _ _ _ Hloop) as [Hlen _].
  destruct (normalize_Ok_fields _ _ H') as [G' [HG' [_ [_ [_ [_ [_ [_ [_ Hloop']]]]]]]]].
  rewrite <- (fileNodes_functional _ _ _ HF' HG') in Hloop'.
  destruct (normalizeNodes_Ok_nth _ _ _ _ _ _ Hloop') as [Hlen' _].
  rewrite Hlen', length_app, Hlen, length_app. reflexivity.
Qed.

(** ** More on the node file *)

Lemma strings_Split_newline_nonempty (s : string) : strings_Split_newline s <> [].
Proof.
  destruct s as [| ch rest]; simpl; [discriminate |].
  destruct (Ascii.eqb ch newline); [discriminate |].
  destruct (strings_Split_newline rest); discriminate.
Qed.

Lemma strings_Split_newline_app (a b : string) :
  strings_Split_newline (a ++ String newline b) =
  (strings_Split_newline a ++ strings_Split_newline b)%list.
Proof.
  induction a as [| ch rest IH]; simpl.
  - reflexivity.
  - destruct (Ascii.eqb ch newline).
    + now rewrite IH.
    + rewrite IH.
      destruct (strings_Split_newline rest) as [| l ls] eqn:E; [| reflexivity].
      now apply strings_Split_newline_nonempty in E.
Qed.

(** X14: the descriptors of two texts joined by a newline are the
    descriptors of the first followed by those of the second: lines are
    read independently of one another. *)
Theorem parseNodeLines_app (a b : string) :
  parseNodeLines (a ++ String newline b) = (parseNodeLines a ++ parseNodeLines b)%list.
Proof.
  rewrite !parseNodeLines_keptLines. unfold keptLines.
  now rewrite strings_Split_newline_app, map_app, filter_app, map_app.
Qed.

Lemma keptLines_In (data line : string) :
  In line (keptLines data) ->
  (exists raw, In raw (strings_Split_newline data) /\ line = strings_TrimSpace raw) /\
  line <> "" /\ strings_HasPrefix line "#" = false.
Proof.
  unfold keptLines. rewrite filter_In, in_map_iff. intros [[raw [Hraw Hin]] Hkept].
  split; [exists raw; now split |].
  unfold keptLine in Hkept. apply andb_true_iff in Hkept. destruct Hkept as [H1 H2].
  apply negb_true_iff in H1, H2. split; [now apply String.eqb_neq | exact H2].
Qed.

(** X15: [loadNodesFromFile] fails exactly when the read fails, with the
    error of the read (no line of a file that was read is an error), and a
    descriptor it returns never has an empty URI or one that starts with
    ['#']. *)
Theorem loadNodesFromFile_no_blank_no_comment (path : string) :
  (forall err, loadNodesFromFile path = Err err <-> os_ReadFile path = Err err) /\
  (forall nodes,
     loadNodesFromFile path = Ok nodes ->
     Forall (fun n => NodeConfig.URI n <> "" /\
                      strings_HasPrefix (NodeConfig.URI n) "#" = false) nodes).
Proof.
  split; [intros err; apply loadNodesFromFile_Err_iff |].
  unfold loadNodesFromFile. intros nodes H.
  destruct (os_ReadFile path) as [data | e]; [| discriminate H].
  inversion H; subst nodes. rewrite parseNodeLines_keptLines.
  apply Forall_map. apply Forall_forall. intros line Hin. simpl.
  now destruct (keptLines_In _ _ Hin) as [_ Hline].
Qed.

Lemma normalizeNodes_uris (mode : string) (mp : MultiPortConfig.t)
    (nodes : list NodeConfig.t) :
  forall (idx : nat) (p : Z) (nodes' : list NodeConfig.t),
    normalizeNodes mode mp idx p nodes = Ok nodes' ->
    map NodeConfig.URI nodes' =
    map (fun n => strings_TrimSpace (NodeConfig.URI n)) nodes.
Proof.
  induction nodes as [| n0 rest IH]; intros idx p nodes' H; simpl in H.
  - now inversion H.
  - apply bind_Ok_inv in H. destruct H as [r [Hr H]].
    apply bind_Ok_inv in H. destruct H as [rest' [Hrest H]].
    inversion H; subst nodes'; clear H.
    destruct (normalizeNode_Ok _ _ _ _ _ _ Hr) as [_ [Huri _]].
    simpl. now rewrite Huri, (IH _ _ _ Hrest).
Qed.

(** X16: a node file alone is enough.  When trimming a trimmed string
    changes nothing (as with [strings.TrimSpace]), the mode is accepted,
    there is no inline node and the node file is read and has at least one
    line that is neither blank nor a comment, [normalize] succeeds, and the
    URIs of the nodes it returns are exactly the kept lines, in file
    order. *)
Theorem normalize_file_only (c : Config.t) (data : string) :
  (forall s, strings_TrimSpace (strings_TrimSpace s) = strings_TrimSpace s) ->
  supportedMode (Config.Mode c) ->
  Config.Nodes c = [] ->
  Config.NodesFile c <> "" ->
  os_ReadFile (Config.NodesFile c) = Ok data ->
  keptLines data <> [] ->
  exists c',
    normalize c = Ok c' /\
    map NodeConfig.URI (Config.Nodes c') = keptLines data.
Proof.
  intros Hidem Hs Hnodes N Hread Hkept.
  assert (Hstable : forall line, In line (keptLines data) ->
                                 strings_TrimSpace line = line).
  { intros line Hin. destruct (keptLines_In _ _ Hin) as [[raw [_ E]] _].
    subst line. apply Hidem. }
  assert (HF : fileNodes c (parseNodeLines data)).
  { right. split; [exact N |]. unfold loadNodesFromFile. now rewrite Hread. }
  assert (Hmerged : (Config.Nodes c ++ parseNodeLines data)%list =
                    map (fun line => NodeConfig.mk "" line 0 "" "") (keptLines data)).
  { rewrite Hnodes. simpl. apply parseNodeLines_keptLines. }
  assert (Hall : Forall (fun n => strings_TrimSpace (NodeConfig.URI n) <> "")
                   (Config.Nodes c ++ parseNodeLines data)%list).
  { rewrite Hmerged. apply Forall_map. apply Forall_forall. intros line Hin. simpl.
    rewrite (Hstable _ Hin). now destruct (keptLines_In _ _ Hin) as [_ [Hne _]]. }
  destruct (normalize_cases c)
    as [[Hno _] | [[_ [_ [err [Herr _]]]] | [[_ [G [HG [Hnil _]]]]
        | [[_ [G [k [HG [_ [Hk _]]]]]] | [_ [G [c' [HG [_ [_ E]]]]]]]]]].
  - contradiction.
  - exfalso. exact (fileNodes_not_load_error _ _ _ HF N Herr).
  - exfalso. rewrite <- (fileNodes_functional _ _ _ HF HG), Hmerged in Hnil.
    destruct (keptLines data); [now apply Hkept | discriminate Hnil].
  - exfalso. rewrite <- (fileNodes_functional _ _ _ HF HG) in Hk.
    apply firstMissingURI_None in Hall. rewrite Hall in Hk. discriminate Hk.
  - exists c'. split; [exact E |].
    destruct (normalize_Ok_fields _ _ E) as [G' [HG' [_ [_ [_ [_ [_ [_ [_ Hloop]]]]]]]]].
    rewrite <- (fileNodes_functional _ _ _ HF HG') in Hloop.
    rewrite (normalizeNodes_uris _ _ _ _ _ _ Hloop), Hmerged, map_map. simpl.
    rewrite <- (map_id (keptLines data)) at 2.
    apply map_ext_in. exact Hstable.
Qed.

(** ** Synthesized names *)

Lemma Sprintf_node_inj (i j : nat) : Sprintf_node i = Sprintf_node j -> i = j.
Proof.
  unfold Sprintf_node. simpl. intros H. inversion H as [Hd].
  apply Unsigned.to_uint_inj.
  assert (Hs : Some (Nat.to_uint i) = Some (Nat.to_uint j)).
  { rewrite <- !NilEmpty.usu. now rewrite Hd. }
  now inversion Hs.
Qed.

Lemma derivedName_fallback (n : NodeConfig.t) (idx : nat) :
  strings_TrimSpace (NodeConfig.Name n) = "" ->
  (forall parsed, url_Parse (strings_TrimSpace (NodeConfig.URI n)) = Ok parsed ->
                  url.Fragment parsed = "") ->
  derivedName n idx = Sprintf_node idx.
Proof.
  intros Hname Hfrag. unfold derivedName, nameFromFragment, trimmedNode. simpl.
  rewrite Hname. simpl.
  destruct (url_Parse (strings_TrimSpace (NodeConfig.URI n))) as [parsed | err]; simpl.
  - rewrite (Hfrag parsed eq_refl). simpl. rewrite ?Hname. reflexivity.
  - rewrite ?Hname. reflexivity.
Qed.

(** X17: two nodes at different indices that both fall back to a
    synthesized name (their trimmed name is empty and their URI does not
    parse or has no fragment) get the names ["node-<i>"] and ["node-<j>"],
    which differ. *)
Theorem normalize_fallback_names_distinct (c c' : Config.t) (F : list NodeConfig.t)
    (i j : nat) (a b : NodeConfig.t) :
  normalize c = Ok c' ->
  (Config.NodesFile c = "" /\ F = [] \/
   Config.NodesFile c <> "" /\ loadNodesFromFile (Config.NodesFile c) = Ok F) ->
  nth_error (Config.Nodes c ++ F)%list i = Some a ->
  nth_error (Config.Nodes c ++ F)%list j = Some b ->
  i <> j ->
  strings_TrimSpace (NodeConfig.Name a) = "" ->
  strings_TrimSpace (NodeConfig.Name b) = "" ->
  (forall parsed, url_Parse (strings_TrimSpace (NodeConfig.URI a)) = Ok parsed ->
                  url.Fragment parsed = "") ->
  (forall parsed, url_Parse (strings_TrimSpace (NodeConfig.URI b)) = Ok parsed ->
                  url.Fragment parsed = "") ->
  exists a' b',
    nth_error (Config.Nodes c') i = Some a' /\
    nth_error (Config.Nodes c') j = Some b' /\
    NodeConfig.Name a' = Sprintf_node i /\
    NodeConfig.Name b' = Sprintf_node j /\
    NodeConfig.Name a' <> NodeConfig.Name b'.
Proof.
  intros H HF Ha Hb Hij Hna Hnb Hfa Hfb.
  destruct (normalize_node_at _ _ _ _ _ H HF Ha) as [a' [Ha' Hsa]].
  destruct (normalize_node_at _ _ _ _ _ H HF Hb) as [b' [Hb' Hsb]].
  destruct (normalizeNode_Ok _ _ _ _ _ _ Hsa) as [_ [_ [Hnamea _]]].
  destruct (normalizeNode_Ok _ _ _ _ _ _ Hsb) as [_ [_ [Hnameb _]]].
  simpl in Hnamea, Hnameb.
  rewrite (derivedName_fallback _ _ Hna Hfa) in Hnamea.
  rewrite (derivedName_fallback _ _ Hnb Hfb) in Hnameb.
  exists a', b'. repeat split; try assumption.
  rewrite Hnamea, Hnameb. intros E. apply Hij. now apply Sprintf_node_inj.
Qed.

End ConfigGo.

(** ** The model on concrete inputs *)



(** The example of the specification: two inline nodes, no node file, no
    mode, no base port. *)
Example normalize_spec_example :
  exists c',
    normalize ascii_TrimSpace cut_url_Parse percent_QueryUnescape (files_ReadFile [])
      (rawConfig "" 0 [uriNode "socks5://h:1#Alice"; uriNode "socks5://h:2"] "") = Ok c' /\
    Config.Mode c' = "pool" /\
    map (fun n => (NodeConfig.Name n, NodeConfig.Port n)) (Config.Nodes c') =
      [("Alice", 28000); ("node-1", 28001)].
Proof. eexists. split; [vm_compute; reflexivity |]. split; reflexivity. Qed.

(** Inline nodes and a node file together, in multi-port mode. *)
Example normalize_mixed_example :
  exists c',
    normalize ascii_TrimSpace cut_url_Parse percent_QueryUnescape (files_ReadFile mixedFiles)
      mixedConfig = Ok c' /\
    map (fun n => (NodeConfig.Name n, NodeConfig.URI n, NodeConfig.Port n))
      (Config.Nodes c') =
      [("Alice", "socks5://h:1#Alice", 28000);
       ("bob", "socks5://h:2", 28001);
       ("a b", "socks5://x:1#a%2520b", 28002);
       ("100%", "socks5://y:2#100%25", 28003);
       ("node-4", "socks5://z:3", 28004)] /\
    resolvedConfig c'.
Proof.
  eexists. split; [vm_compute; reflexivity |]. split; [reflexivity |].
  unfold resolvedConfig, resolvedNode. simpl.
  repeat match goal with |- _ /\ _ => split end; try discriminate.
  - now right.
  - repeat (constructor; [repeat split; discriminate |]). constructor.
Qed.

(** C9: an iteration of the node loop moves the port cursor exactly when
    it assigns a port (a node with a nonzero port keeps it and leaves the
    cursor where it is; a node with port zero takes the cursor, which moves
    by one), and resolved ports can coincide: with an explicit first port
    equal to the base port and a second node without port, [normalize]
    succeeds and both nodes have the base port. *)
Theorem port_cursor_moves_only_on_assignment :
  (forall strings_TrimSpace url_Parse url_QueryUnescape mode mp idx p n r,
     normalizeNode strings_TrimSpace url_Parse url_QueryUnescape mode mp idx p n = Ok r ->
     (NodeConfig.Port n <> 0 -> NodeConfig.Port (fst r) = NodeConfig.Port n /\ snd r = p) /\
     (NodeConfig.Port n = 0 -> NodeConfig.Port (fst r) = p /\ snd r = uint16_incr p)) /\
  (exists c c' n1 n2,
     Config.Nodes c = [n1; n2] /\ Config.NodesFile c = "" /\
     normalize ascii_TrimSpace cut_url_Parse percent_QueryUnescape (files_ReadFile []) c =
       Ok c' /\
     NodeConfig.Port n1 = MultiPortConfig.BasePort (Config.MultiPort c') /\
     NodeConfig.Port n2 = 0 /\
     map NodeConfig.Port (Config.Nodes c') = [NodeConfig.Port n1; NodeConfig.Port n1]).
Proof.
  split.
  - intros ts up uq mode mp idx p n r H.
    destruct (normalizeNode_Ok ts up uq _ _ _ _ _ _ H) as [_ [_ [_ [Hport [Hsnd _]]]]].
    split; intros Hn.
    + apply Z.eqb_neq in Hn. rewrite Hn in Hport, Hsnd. now split.
    + rewrite Hn in Hport, Hsnd. now split.
  - exists clashConfig. eexists.
    exists (NodeConfig.mk "first" "socks5://h:1" 28000 "" ""), (uriNode "socks5://h:2").
    split; [reflexivity |]. split; [reflexivity |].
    split; [vm_compute; reflexivity |]. repeat split.
Qed.

(** ** The theorems at concrete inputs *)

Lemma loadNodesFromFile_kept_lines_witness :
  loadNodesFromFile ascii_TrimSpace (files_ReadFile mixedFiles) "nodes.txt" =
  Ok [uriNode "socks5://x:1#a%2520b"; uriNode "socks5://y:2#100%25";
      uriNode "socks5://z:3"].
Proof.
  rewrite (loadNodesFromFile_kept_lines ascii_TrimSpace (files_ReadFile mixedFiles)
             "nodes.txt" _ eq_refl).
  reflexivity.
Defined.

Lemma normalize_mode_cases_witness :
  (exists c',
     normalize ascii_TrimSpace cut_url_Parse percent_QueryUnescape (files_ReadFile [])
       (rawConfig "" 0 [uriNode "socks5://h:2"] "") = Ok c' /\
     Config.Mode c' = "pool") /\
  (exists c',
     normalize ascii_TrimSpace cut_url_Parse percent_QueryUnescape (files_ReadFile [])
       (rawConfig "multi_port" 0 [uriNode "socks5://h:2"] "") = Ok c' /\
     Config.Mode c' = "multi-port") /\
  normalize ascii_TrimSpace cut_url_Parse percent_QueryUnescape (files_ReadFile [])
    (rawConfig "cluster" 0 [uriNode "socks5://h:2"] "") =
  Err (ErrUnsupportedMode "cluster").
Proof.
  split; [| split].
  - eexists. split; [vm_compute; reflexivity |].
    destruct (normalize_mode_cases ascii_TrimSpace cut_url_Parse percent_QueryUnescape
                (files_ReadFile []) (rawConfig "" 0 [uriNode "socks5://h:2"] ""))
      as [H _].
    destruct (H eq_refl) as [_ Hmode]. apply Hmode. vm_compute. reflexivity.
  - eexists. split; [vm_compute; reflexivity |].
    destruct (normalize_mode_cases ascii_TrimSpace cut_url_Parse percent_QueryUnescape
                (files_ReadFile []) (rawConfig "multi_port" 0 [uriNode "socks5://h:2"] ""))
      as [_ [H _]].
    destruct (H eq_refl) as [_ Hmode]. apply Hmode. vm_compute. reflexivity.
  - destruct (normalize_mode_cases ascii_TrimSpace cut_url_Parse percent_QueryUnescape
                (files_ReadFile []) (rawConfig "cluster" 0 [uriNode "socks5://h:2"] ""))
      as [_ [_ [_ H]]].
    apply H; discriminate.
Defined.


Lemma normalize_credentials_witness :
  exists c',
    normalize ascii_TrimSpace cut_url_Parse percent_QueryUnescape
      (files_ReadFile mixedFiles) mixedConfig = Ok c' /\
    exists n', nth_error (Config.Nodes c') 1 = Some n' /\
               NodeConfig.Username n' = "mp-user" /\ NodeConfig.Password n' = "mp-pass".
Proof.
  eexists. split; [vm_compute; reflexivity |].
  destruct (normalize_credentials ascii_TrimSpace cut_url_Parse percent_QueryUnescape
              (files_ReadFile mixedFiles) mixedConfig _
              [uriNode "socks5://x:1#a%2520b"; uriNode "socks5://y:2#100%25";
               uriNode "socks5://z:3"]
              1%nat (NodeConfig.mk " bob " "  socks5://h:2 " 0 "" "secret")
              ltac:(vm_compute; reflexivity)
              ltac:(right; split; [discriminate | vm_compute; reflexivity])
              eq_refl)
    as [n' [Hn' [Hinherit _]]].
  exists n'. split; [exact Hn' |]. apply Hinherit. split; reflexivity.
Defined.

Lemma normalize_merge_order_witness :
  exists c',
    normalize ascii_TrimSpace cut_url_Parse percent_QueryUnescape
      (files_ReadFile mixedFiles) mixedConfig = Ok c' /\
    List.length (Config.Nodes c') = 5%nat.
Proof.
  eexists. split; [vm_compute; reflexivity |].
  destruct (normalize_merge_order ascii_TrimSpace cut_url_Parse percent_QueryUnescape
              (files_ReadFile mixedFiles) mixedConfig
              (Config.set_Mode "multi-port" mixedConfig)
              [uriNode "socks5://x:1#a%2520b"; uriNode "socks5://y:2#100%25";
               uriNode "socks5://z:3"]
              eq_refl
              ltac:(right; split; [discriminate | vm_compute; reflexivity]))
    as [_ [_ [_ Hnodes]]].
  destruct (Hnodes _ ltac:(vm_compute; reflexivity)) as [Hlen _]. exact Hlen.
Defined.

Lemma normalize_empty_nodes_witness :
  normalize ascii_TrimSpace cut_url_Parse percent_QueryUnescape (files_ReadFile [])
    (rawConfig "" 0 [] "") = Err ErrNodesEmpty /\
  exists e,
    normalize ascii_TrimSpace cut_url_Parse percent_QueryUnescape
      (files_ReadFile [("nodes.txt", "# only a comment

")])
      (rawConfig "pool" 0 [] "nodes.txt") = Err e /\
    e = ErrNodesEmpty.
Proof.
  split.
  - apply (normalize_empty_nodes ascii_TrimSpace cut_url_Parse percent_QueryUnescape
             (files_ReadFile []) (rawConfig "" 0 [] "")).
    split; [left; reflexivity |].
    exists []. split; [left; split; reflexivity | reflexivity].
  - destruct (normalize_empty_nodes ascii_TrimSpace cut_url_Parse percent_QueryUnescape
                (files_ReadFile [("nodes.txt", "# only a comment

")])
                (rawConfig "pool" 0 [] "nodes.txt")) as [_ [_ Hfile]].
    destruct (Hfile _ eq_refl ltac:(discriminate) eq_refl) as [e [He Hkind]].
    + repeat (constructor; [first [left; reflexivity | right; reflexivity] |]).
      constructor.
    + exists e. split; [exact He |]. apply Hkind.
      right. right. left. reflexivity.
Defined.

Lemma normalize_ports_wrap_around_witness :
  exists c',
    normalize ascii_TrimSpace cut_url_Parse percent_QueryUnescape (files_ReadFile [])
      wrapConfig = Ok c' /\
    MultiPortConfig.BasePort (Config.MultiPort c') = 65535 /\
    map NodeConfig.Port (Config.Nodes c') = [65535; 0] /\
    map NodeConfig.Port (Config.Nodes c') <>
      contiguousPorts (MultiPortConfig.BasePort (Config.MultiPort c')) 2.
Proof.
  eexists. split; [vm_compute; reflexivity |].
  apply (normalize_ports_wrap_around ascii_TrimSpace cut_url_Parse percent_QueryUnescape
           (files_ReadFile []) wrapConfig _
           (uriNode "socks5://h:1#Alice") (uriNode "socks5://h:2"));
    vm_compute; reflexivity.
Defined.

Lemma normalize_port_zero_after_wrap_witness :
  exists c',
    normalize ascii_TrimSpace cut_url_Parse percent_QueryUnescape (files_ReadFile [])
      wrapConfig = Ok c' /\
    (exists m1 m2, Config.Nodes c' = [m1; m2] /\ NodeConfig.Port m2 = 0) /\
    ~ resolvedConfig c'.
Proof.
  eexists. split; [vm_compute; reflexivity |].
  apply (normalize_port_zero_after_wrap ascii_TrimSpace cut_url_Parse percent_QueryUnescape
           (files_ReadFile []) wrapConfig _
           (uriNode "socks5://h:1#Alice") (uriNode "socks5://h:2"));
    vm_compute; reflexivity.
Defined.

(** ** The byte-level [TrimSpace] is idempotent *)

Lemma trim_right_cons (ch : ascii) (rest : string) :
  trim_right (String ch rest) =
  match trim_right rest with
  | EmptyString => if is_ascii_space ch then EmptyString else String ch EmptyString
  | kept => String ch kept
  end.
Proof. reflexivity. Qed.

Lemma trim_right_stable (s : string) : trim_right (trim_right s) = trim_right s.
Proof.
  induction s as [| ch rest IH]; [reflexivity |].
  rewrite trim_right_cons.
  destruct (trim_right rest) as [| k ks] eqn:E.
  - destruct (is_ascii_space ch) eqn:Es; [reflexivity |].
    rewrite trim_right_cons. simpl. now rewrite Es.
  - rewrite trim_right_cons, IH. reflexivity.
Qed.

Lemma trim_left_no_leading_space (s : string) : no_leading_space (trim_left s).
Proof.
  induction s as [| ch rest IH]; simpl; [exact I |].
  destruct (is_ascii_space ch) eqn:Es; [exact IH | exact Es].
Qed.

Lemma trim_right_no_leading_space (s : string) :
  no_leading_space s -> no_leading_space (trim_right s).
Proof.
  destruct s as [| ch rest]; [trivial |].
  simpl no_leading_space at 1. intros Es. rewrite trim_right_cons.
  destruct (trim_right rest); [rewrite Es |]; exact Es.
Qed.

Lemma trim_left_fixed (s : string) : no_leading_space s -> trim_left s = s.
Proof.
  destruct s as [| ch rest]; [reflexivity |].
  simpl. intros Es. now rewrite Es.
Qed.

Lemma ascii_TrimSpace_idempotent (s : string) :
  ascii_TrimSpace (ascii_TrimSpace s) = ascii_TrimSpace s.
Proof.
  unfold ascii_TrimSpace.
  rewrite (trim_left_fixed (trim_right (trim_left s))).
  - apply trim_right_stable.
  - apply trim_right_no_leading_space, trim_left_no_leading_space.
Qed.

(** ** The further theorems at concrete inputs *)

Lemma normalize_succeeds_iff_witness :
  exists c',
    normalize ascii_TrimSpace cut_url_Parse percent_QueryUnescape
      (files_ReadFile mixedFiles) mixedConfig = Ok c'.
Proof.
  apply (normalize_succeeds_iff ascii_TrimSpace cut_url_Parse percent_QueryUnescape
           (files_ReadFile mixedFiles) mixedConfig).
  split; [right; left; reflexivity |].
  exists [uriNode "socks5://x:1#a%2520b"; uriNode "socks5://y:2#100%25";
          uriNode "socks5://z:3"].
  split; [right; split; [discriminate | vm_compute; reflexivity] |].
  split; [discriminate |].
  repeat (constructor; [vm_compute; discriminate |]). constructor.
Defined.

Lemma normalize_missing_uri_iff_witness :
  normalize ascii_TrimSpace cut_url_Parse percent_QueryUnescape (files_ReadFile [])
    (rawConfig "" 0 [uriNode "socks5://h:1"; uriNode "   "; uriNode ""] "") =
  Err (ErrMissingURI 1).
Proof.
  apply (normalize_missing_uri_iff ascii_TrimSpace cut_url_Parse percent_QueryUnescape
           (files_ReadFile [])
           (rawConfig "" 0 [uriNode "socks5://h:1"; uriNode "   "; uriNode ""] "") 1).
  split; [left; reflexivity |].
  exists [], (uriNode "   ").
  split; [left; split; reflexivity |].
  split; [reflexivity |]. split; [reflexivity |].
  constructor; [vm_compute; discriminate | constructor].
Defined.

Lemma normalize_load_error_iff_witness :
  normalize ascii_TrimSpace cut_url_Parse percent_QueryUnescape (files_ReadFile [])
    (rawConfig "pool" 0 [uriNode "   "] "missing.txt") =
  Err (ErrLoadNodesFile "missing.txt" "open: no such file or directory").
Proof.
  apply (normalize_load_error_iff ascii_TrimSpace cut_url_Parse percent_QueryUnescape
           (files_ReadFile []) (rawConfig "pool" 0 [uriNode "   "] "missing.txt")).
  split; [right; right; left; reflexivity |].
  split; [discriminate |]. split; reflexivity.
Defined.

Lemma Load_read_decode_errors_witness :
  Load ascii_TrimSpace cut_url_Parse percent_QueryUnescape (files_ReadFile mixedDisk)
    sample_Unmarshal "absent.yaml" =
    Err (ErrReadConfig "open: no such file or directory") /\
  Load ascii_TrimSpace cut_url_Parse percent_QueryUnescape (files_ReadFile mixedDisk)
    sample_Unmarshal "broken.yaml" =
    Err (ErrDecodeConfig "yaml: unmarshal errors").
Proof.
  split.
  - apply (Load_read_decode_errors ascii_TrimSpace cut_url_Parse percent_QueryUnescape
             (files_ReadFile mixedDisk) sample_Unmarshal "absent.yaml").
    reflexivity.
  - apply (Load_read_decode_errors ascii_TrimSpace cut_url_Parse percent_QueryUnescape
             (files_ReadFile mixedDisk) sample_Unmarshal "broken.yaml").
    exists "nodes: {". split; reflexivity.
Defined.

Lemma Load_Ok_resolved_witness :
  exists c',
    Load ascii_TrimSpace cut_url_Parse percent_QueryUnescape (files_ReadFile mixedDisk)
      sample_Unmarshal "config.yaml" = Ok c' /\
    Config.Nodes c' <> [] /\
    exists b, ManagementConfig.Enabled (Config.Management c') = Some b /\
              ManagementEnabled c' = (Returns bool b, c').
Proof.
  eexists. split; [vm_compute; reflexivity |].
  destruct (Load_Ok_resolved ascii_TrimSpace cut_url_Parse percent_QueryUnescape
              (files_ReadFile mixedDisk) sample_Unmarshal "config.yaml" _
              ltac:(vm_compute; reflexivity))
    as [_ [_ [Hne [_ [_ [_ [_ [_ [_ [_ [_ [_ [_ [_ Hen]]]]]]]]]]]]]].
  split; [exact Hne | exact Hen].
Defined.

Lemma normalize_defaults_witness :
  exists c',
    normalize ascii_TrimSpace cut_url_Parse percent_QueryUnescape
      (files_ReadFile mixedFiles) mixedConfig = Ok c' /\
    ListenerConfig.Address (Config.Listener c') = "0.0.0.0" /\
    ListenerConfig.Port (Config.Listener c') = 2323.
Proof.
  eexists. split; [vm_compute; reflexivity |].
  destruct (normalize_defaults ascii_TrimSpace cut_url_Parse percent_QueryUnescape
              (files_ReadFile mixedFiles) mixedConfig _ ltac:(vm_compute; reflexivity))
    as [Haddr [Hport _]].
  split; [exact Haddr | exact Hport].
Defined.

Lemma normalize_keeps_ManagementEnabled_witness :
  exists c',
    normalize ascii_TrimSpace cut_url_Parse percent_QueryUnescape
      (files_ReadFile mixedFiles) mixedConfig = Ok c' /\
    fst (ManagementEnabled c') = Returns bool true.
Proof.
  eexists. split; [vm_compute; reflexivity |].
  exact (normalize_keeps_ManagementEnabled ascii_TrimSpace cut_url_Parse
           percent_QueryUnescape (files_ReadFile mixedFiles) mixedConfig _
           ltac:(vm_compute; reflexivity)).
Defined.

Lemma normalize_result_stable_witness :
  exists c',
    normalize ascii_TrimSpace cut_url_Parse percent_QueryUnescape
      (files_ReadFile mixedFiles) mixedConfig = Ok c' /\
    normalizeMode c' = Ok c' /\ applyDefaults c' = c' /\ defaultLogLevel c' = c'.
Proof.
  eexists. split; [vm_compute; reflexivity |].
  exact (normalize_result_stable ascii_TrimSpace cut_url_Parse percent_QueryUnescape
           (files_ReadFile mixedFiles) mixedConfig _ ltac:(vm_compute; reflexivity)).
Defined.

Lemma normalize_port_at_witness :
  exists c',
    normalize ascii_TrimSpace cut_url_Parse percent_QueryUnescape
      (files_ReadFile mixedFiles) mixedConfig = Ok c' /\
    exists n', nth_error (Config.Nodes c') 3 = Some n' /\ NodeConfig.Port n' = 28003.
Proof.
  eexists. split; [vm_compute; reflexivity |].
  destruct (normalize_port_at ascii_TrimSpace cut_url_Parse percent_QueryUnescape
              (files_ReadFile mixedFiles) mixedConfig _
              [uriNode "socks5://x:1#a%2520b"; uriNode "socks5://y:2#100%25";
               uriNode "socks5://z:3"]
              3%nat (uriNode "socks5://y:2#100%25")
              ltac:(vm_compute; reflexivity)
              ltac:(right; split; [discriminate | vm_compute; reflexivity])
              ltac:(vm_compute; split; [discriminate | reflexivity])
              eq_refl)
    as [n' [Hn' Hport]].
  exists n'. split; [exact Hn' | exact Hport].
Defined.

Lemma normalize_ports_distinct_witness :
  exists c',
    normalize ascii_TrimSpace cut_url_Parse percent_QueryUnescape
      (files_ReadFile mixedFiles) mixedConfig = Ok c' /\
    NoDup (map NodeConfig.Port (Config.Nodes c')).
Proof.
  eexists. split; [vm_compute; reflexivity |].
  apply (normalize_ports_distinct ascii_TrimSpace cut_url_Parse percent_QueryUnescape
           (files_ReadFile mixedFiles) mixedConfig _
           [uriNode "socks5://x:1#a%2520b"; uriNode "socks5://y:2#100%25";
            uriNode "socks5://z:3"]).
  - vm_compute. reflexivity.
  - right. split; [discriminate | vm_compute; reflexivity].
  - repeat (constructor; [reflexivity |]). constructor.
  - vm_compute. split; [discriminate | reflexivity].
  - vm_compute. discriminate.
Defined.

Lemma normalize_ports_in_range_witness :
  exists c',
    normalize ascii_TrimSpace cut_url_Parse percent_QueryUnescape (files_ReadFile [])
      wrapConfig = Ok c' /\
    is_uint16 (MultiPortConfig.BasePort (Config.MultiPort c')) /\
    Forall (fun n => is_uint16 (NodeConfig.Port n)) (Config.Nodes c').
Proof.
  eexists. split; [vm_compute; reflexivity |].
  apply (normalize_ports_in_range ascii_TrimSpace cut_url_Parse percent_QueryUnescape
           (files_ReadFile []) wrapConfig _ []).
  - vm_compute. reflexivity.
  - left. split; reflexivity.
  - vm_compute. split; [discriminate | reflexivity].
  - repeat (constructor; [vm_compute; split; [discriminate | reflexivity] |]). constructor.
Defined.

Lemma normalize_multiport_usernames_witness :
  exists c',
    normalize ascii_TrimSpace cut_url_Parse percent_QueryUnescape
      (files_ReadFile mixedFiles) mixedConfig = Ok c' /\
    Forall (fun n => NodeConfig.Username n <> "") (Config.Nodes c').
Proof.
  eexists. split; [vm_compute; reflexivity |].
  apply (normalize_multiport_usernames ascii_TrimSpace cut_url_Parse percent_QueryUnescape
           (files_ReadFile mixedFiles) mixedConfig).
  - vm_compute. reflexivity.
  - reflexivity.
  - discriminate.
Defined.

Lemma normalize_twice_appends_file_again_witness :
  exists c' c'',
    normalize ascii_TrimSpace cut_url_Parse percent_QueryUnescape
      (files_ReadFile mixedFiles) mixedConfig = Ok c' /\
    normalize ascii_TrimSpace cut_url_Parse percent_QueryUnescape
      (files_ReadFile mixedFiles) c' = Ok c'' /\
    List.length (Config.Nodes c') = 5%nat /\
    List.length (Config.Nodes c'') = 8%nat.
Proof.
  eexists. eexists. split; [vm_compute; reflexivity |].
  split; [vm_compute; reflexivity |]. split; [reflexivity |].
  exact (normalize_twice_appends_file_again ascii_TrimSpace cut_url_Parse
           percent_QueryUnescape (files_ReadFile mixedFiles) mixedConfig _ _
           [uriNode "socks5://x:1#a%2520b"; uriNode "socks5://y:2#100%25";
            uriNode "socks5://z:3"]
           ltac:(vm_compute; reflexivity)
           ltac:(right; split; [discriminate | vm_compute; reflexivity])
           ltac:(vm_compute; reflexivity)).
Defined.

Lemma normalize_file_only_witness :
  exists c',
    normalize ascii_TrimSpace cut_url_Parse percent_QueryUnescape
      (files_ReadFile mixedFiles) (rawConfig "" 0 [] "nodes.txt") = Ok c' /\
    map NodeConfig.URI (Config.Nodes c') =
    ["socks5://x:1#a%2520b"; "socks5://y:2#100%25"; "socks5://z:3"].
Proof.
  destruct (normalize_file_only ascii_TrimSpace cut_url_Parse percent_QueryUnescape
              (files_ReadFile mixedFiles) (rawConfig "" 0 [] "nodes.txt") _
              ascii_TrimSpace_idempotent
              ltac:(left; reflexivity) eq_refl ltac:(discriminate) eq_refl
              ltac:(vm_compute; discriminate))
    as [c' [Hc' Huris]].
  exists c'. split; [exact Hc' |]. rewrite Huris. vm_compute. reflexivity.
Defined.

Lemma normalize_ports_contiguous_no_wrap_witness :
  exists c',
    normalize ascii_TrimSpace cut_url_Parse percent_QueryUnescape
      (files_ReadFile mixedFiles) mixedConfig = Ok c' /\
    map NodeConfig.Port (Config.Nodes c') = [28000; 28001; 28002; 28003; 28004].
Proof.
  eexists. split; [vm_compute; reflexivity |].
  destruct (normalize_ports_contiguous_no_wrap ascii_TrimSpace cut_url_Parse
              percent_QueryUnescape (files_ReadFile mixedFiles) mixedConfig _
              [uriNode "socks5://x:1#a%2520b"; uriNode "socks5://y:2#100%25";
               uriNode "socks5://z:3"]
              ltac:(vm_compute; reflexivity)
              ltac:(right; split; [discriminate | vm_compute; reflexivity])
              ltac:(repeat (constructor; [reflexivity |]); constructor)
              ltac:(vm_compute; split; [discriminate | reflexivity])
              ltac:(vm_compute; discriminate))
    as [_ Hports].
  exact Hports.
Defined.

Lemma normalize_resolved_no_wrap_witness :
  exists c',
    normalize ascii_TrimSpace cut_url_Parse percent_QueryUnescape
      (files_ReadFile mixedFiles) mixedConfig = Ok c' /\
    resolvedConfig c'.
Proof.
  eexists. split; [vm_compute; reflexivity |].
  apply (normalize_resolved_no_wrap ascii_TrimSpace cut_url_Parse percent_QueryUnescape
           (files_ReadFile mixedFiles) mixedConfig _
           [uriNode "socks5://x:1#a%2520b"; uriNode "socks5://y:2#100%25";
            uriNode "socks5://z:3"]).
  - vm_compute. reflexivity.
  - right. split; [discriminate | vm_compute; reflexivity].
  - vm_compute. discriminate.
  - vm_compute. discriminate.
Defined.

Lemma normalize_fallback_names_distinct_witness :
  exists c' a' b',
    normalize ascii_TrimSpace cut_url_Parse percent_QueryUnescape (files_ReadFile [])
      (rawConfig "" 0 [uriNode "socks5://h:1"; uriNode "socks5://h:2"] "") = Ok c' /\
    nth_error (Config.Nodes c') 0 = Some a' /\
    nth_error (Config.Nodes c') 1 = Some b' /\
    NodeConfig.Name a' = "node-0" /\
    NodeConfig.Name b' = "node-1".
Proof.
  eexists.
  destruct (normalize_fallback_names_distinct ascii_TrimSpace cut_url_Parse
              percent_QueryUnescape (files_ReadFile [])
              (rawConfig "" 0 [uriNode "socks5://h:1"; uriNode "socks5://h:2"] "") _ []
              0%nat 1%nat (uriNode "socks5://h:1") (uriNode "socks5://h:2")
              ltac:(vm_compute; reflexivity)
              ltac:(left; split; reflexivity)
              eq_refl eq_refl ltac:(discriminate) eq_refl eq_refl
              ltac:(intros parsed Hp; vm_compute in Hp; inversion Hp; reflexivity)
              ltac:(intros parsed Hp; vm_compute in Hp; inversion Hp; reflexivity))
    as [a' [b' [Ha' [Hb' [Hna [Hnb _]]]]]].
  exists a', b'. split; [vm_compute; reflexivity |].
  split; [exact Ha' |]. split; [exact Hb' |]. split; [exact Hna | exact Hnb].
Defined.
